(** * Outlook MCP server: the numbered e-mail cache and the tools around it

    A shallow embedding of [outlook_mcp_server.py]: the three mail tools
    ([outlook_list_recent_emails], [outlook_search_emails],
    [outlook_get_email_by_number]), the folder tool
    ([outlook_list_folders]), the two helpers they call
    ([safe_connect_to_outlook], [get_folder_by_name]) and the global
    [email_cache] dictionary, which is threaded through the tools as an
    explicit state.

    Conventions of the embedding:
    - Python [int] is [Z]; the cache (a [dict] keyed by [int]) is a
      [gmap Z Item].
    - A COM property access that may raise is a value of type [py A]:
      either [Returns a] or [Raises msg], [msg] being [str(e)].
    - A [string] holds the UTF-8 bytes of the Python string; equality and
      [in] on the bytes are equality and [in] on the strings.
    - A naive [datetime] is the number of microseconds since
      1970-01-01 00:00:00 on the local wall clock.
    - [str] is [string]; [str.lower] is a parameter of the tools, so
      everything proved of them holds for the runtime's Unicode case
      folding.  The samples are ASCII text, on which it is [ascii_lower].
    - Logging is not modelled: it does not influence any returned value. *)

From stdpp Require Import gmap strings list pretty sorting.
From Stdlib Require Import ZArith Lia Ascii.

#[local] Set Warnings "-register-all".

Open Scope Z_scope.

(** ** Exceptions *)

Inductive py (A : Type) : Type :=
| Returns (a : A)
| Raises (msg : string).
Arguments Returns {A} a.
Arguments Raises {A} msg.

Definition bind {A B : Type} (m : py A) (k : A → py B) : py B :=
  match m with
  | Returns a => k a
  | Raises msg => Raises msg
  end.

Notation "'let!' x ':=' m 'in' k" := (bind m (λ x, k))
  (at level 10, x name, m at level 100, k at level 200,
   format "'[v' 'let!'  x  :=  m  'in'  '/' k ']'").

(** [hasattr(obj, name)]: the attribute exists or it does not. *)
Inductive attr (A : Type) : Type :=
| NoAttr
| Attr (v : A).
Arguments NoAttr {A}.
Arguments Attr {A} v.

(** ** Strings *)

(** [v or ""] for a string property that may be [None]. *)
Definition or_empty (v : option string) : string :=
  match v with
  | Some s => s
  | None => ""
  end.

(** [str.lower()] on ASCII text: the letters A-Z go to a-z.  It stands in
    for the runtime's function on the ASCII samples only. *)
Definition lower_ascii (c : ascii) : ascii :=
  let n := N_of_ascii c in
  if ((65 <=? n) && (n <=? 90))%N then ascii_of_N (n + 32) else c.

Fixpoint ascii_lower (s : string) : string :=
  match s with
  | EmptyString => EmptyString
  | String c s' => String (lower_ascii c) (ascii_lower s')
  end.

(** [sub in s] on strings. *)
Fixpoint str_in (sub s : string) : bool :=
  String.prefix sub s ||
  match s with
  | EmptyString => false
  | String _ s' => str_in sub s'
  end.


(** [not s] on a string. *)
Definition str_falsy (s : string) : bool :=
  match s with
  | EmptyString => true
  | String _ _ => false
  end.

(** ** Dates *)

Definition MICROS_PER_SECOND : Z := 1000000.
Definition MICROS_PER_DAY : Z := 86400 * MICROS_PER_SECOND.

(** [datetime.timedelta(days=days)] *)
Definition timedelta_days (days : Z) : Z := days * MICROS_PER_DAY.

Definition civil_from_days (z : Z) : Z * Z * Z :=
  let z := z + 719468 in
  let era := z / 146097 in
  let doe := z - era * 146097 in
  let yoe := (doe - doe / 1460 + doe / 36524 - doe / 146096) / 365 in
  let doy := doe - (365 * yoe + yoe / 4 - yoe / 100) in
  let mp := (5 * doy + 2) / 153 in
  let d := doy - (153 * mp + 2) / 5 + 1 in
  let m := if mp <? 10 then mp + 3 else mp - 9 in
  let y := yoe + era * 400 in
  (if m <=? 2 then y + 1 else y, m, d).

Fixpoint zeros (n : nat) : string :=
  match n with
  | O => ""
  | S n' => String "0" (zeros n')
  end.

Definition zpad (width : nat) (n : Z) : string :=
  let s := pretty n in
  zeros (width - String.length s) +:+ s.

(** [t.strftime("%Y-%m-%d %H:%M:%S")] *)
Definition strftime (t : Z) : string :=
  let secs := t / MICROS_PER_SECOND in
  let '(y, m, d) := civil_from_days (secs / 86400) in
  let sod := secs mod 86400 in
  zpad 4 y +:+ "-" +:+ zpad 2 m +:+ "-" +:+ zpad 2 d +:+ " " +:+
  zpad 2 (sod / 3600) +:+ ":" +:+ zpad 2 (sod mod 3600 / 60) +:+ ":" +:+
  zpad 2 (sod mod 60).

(** ** The mail provider's objects *)

Record Attachment : Type := {
  FileName : string;
  Size : Z
}.

(** A mail item as the tools see it.  A read of a property used inside the
    [email_data] and [email_details] literals or in the search test either
    yields a value ([None] for a missing string) or raises.  [ReceivedTime]
    and [Importance] are read behind [hasattr]: the attribute is absent (the
    read raises [AttributeError]) or present, and a present [ReceivedTime] is
    [None] or a datetime.  The cache stores the item object itself; the
    provider's objects are taken not to change between a listing and a
    later lookup, so an item is an immutable record. *)
Record Item : Type := {
  Subject : py (option string);
  SenderName : py (option string);
  SenderEmailAddress : py (option string);
  ReceivedTime : attr (option Z);
  Body : py (option string);
  UnRead : py bool;
  Importance : attr Z;
  Attachments : py (list Attachment)
}.

(** [Items] is the folder's item collection in the order in which the loops
    enumerate it, that is, after [folder_items.Sort("[ReceivedTime]", True)]. *)
Inductive Folder : Type := mkFolder {
  Name : string;
  Items : list Item;
  Folders : list Folder
}.

Record Namespace : Type := {
  GetDefaultFolder : Z → py Folder;
  ns_Folders : list Folder
}.

(** Which reads of the folder tree raise during one call, and with what
    text: [namespace.Folders], [folder.Name] and [folder.Folders].  A read
    that does not raise yields what the provider holds.
    [outlook_list_folders] is the one tool with a handler of its own around
    folder reads, so its reads go through these; the other tools are
    modelled for calls in which the folder reads succeed. *)
Record ReadFailures : Type := {
  roots_fail : Namespace → option string;
  Name_fails : Folder → option string;
  Folders_fail : Folder → option string
}.

(** ** What the tools return *)

Record Summary : Type := {
  s_id : string;
  s_subject : string;
  s_sender : string;
  s_sender_email : string;
  s_received_time : string;
  s_read_status : string;
  s_has_attachments : bool
}.

Record AttachmentRecord : Type := {
  filename : string;
  size_bytes : Z
}.

Record Detail : Type := {
  d_subject : string;
  d_sender : string;
  d_sender_email : string;
  d_received_time : string;
  d_body : string;
  d_read_status : string;
  d_importance : Z;
  d_has_attachments : bool;
  d_attachments : list AttachmentRecord
}.

(** The dictionaries returned by the three tools. *)
Inductive ToolResult : Type :=
| EmailList (folder : string) (total_emails : nat) (emails : list Summary)
| SearchList (folder search_term : string) (total_emails : nat)
    (emails : list Summary)
| EmailDetails (d : Detail)
| Error (error : string).

(** ** Sample data *)

Module Sample.

Definition day : Z := MICROS_PER_DAY.

(** A readable message without attachments. *)
Definition mail (subject sender body : string) (received : Z) : Item :=
  {| Subject := Returns (Some subject);
     SenderName := Returns (Some sender);
     SenderEmailAddress := Returns (Some (sender +:+ "@example.org"));
     ReceivedTime := Attr (Some received);
     Body := Returns (Some body);
     UnRead := Returns true;
     Importance := Attr 1;
     Attachments := Returns [] |}.

(** An item without a [ReceivedTime] attribute (a meeting request, say). *)
Definition untimed (subject : string) : Item :=
  {| Subject := Returns (Some subject);
     SenderName := Returns None;
     SenderEmailAddress := Returns None;
     ReceivedTime := NoAttr;
     Body := Returns None;
     UnRead := Returns false;
     Importance := NoAttr;
     Attachments := Returns [] |}.

(** A message whose sender name cannot be read. *)
Definition broken (subject : string) (received : Z) : Item :=
  {| Subject := Returns (Some subject);
     SenderName := Raises "com_error: sender";
     SenderEmailAddress := Returns None;
     ReceivedTime := Attr (Some received);
     Body := Returns (Some "");
     UnRead := Returns false;
     Importance := Attr 1;
     Attachments := Returns [] |}.

Definition with_attachments (item : Item) (atts : list Attachment) : Item :=
  {| Subject := Subject item;
     SenderName := SenderName item;
     SenderEmailAddress := SenderEmailAddress item;
     ReceivedTime := ReceivedTime item;
     Body := Body item;
     UnRead := UnRead item;
     Importance := Importance item;
     Attachments := Returns atts |}.

Definition now : Z := 1700000000 * MICROS_PER_SECOND.

Definition ago (days : Z) : Z := now - days * day.

Definition inbox_of (items : list Item) : Folder :=
  {| Name := "Inbox"; Items := items; Folders := [] |}.

Definition outlook_of (items : list Item) : py Namespace :=
  Returns {| GetDefaultFolder := λ _, Returns (inbox_of items);
             ns_Folders := [] |}.

(** Five messages received 0, 1, 8, 9 and 20 days ago. *)
Definition five : list Item :=
  [ mail "Budget review" "Alice" "Please see the numbers." (ago 0);
    mail "Lunch" "Bob" "Budget permitting, noon?" (ago 1);
    mail "Old budget" "Carol" "From last week." (ago 8);
    mail "Minutes" "Dave" "Attached." (ago 9);
    mail "Welcome" "Erin" "Hello." (ago 20) ].

(** Three recent messages; the sender name of the second cannot be
    read. *)
Definition flaky : list Item :=
  [ mail "Lunch today" "Alice" "Noon?" (ago 0);
    broken "Lunch tomorrow" (ago 1);
    mail "Re: lunch" "Bob" "Fine." (ago 2) ].

End Sample.

Module Mailbox.

Definition leaf (name : string) : Folder :=
  {| Name := name; Items := []; Folders := [] |}.

Definition node (name : string) (children : list Folder) : Folder :=
  {| Name := name; Items := []; Folders := children |}.

(** The default inbox with two subfolders, one of them nested further. *)
Definition inbox : Folder :=
  {| Name := "Inbox"; Items := Sample.five;
     Folders := [ node "Projects" [ node "Alpha" [ leaf "Drafts" ] ];
                  leaf "Receipts" ] |}.

Definition roots : list Folder :=
  [ node "user@example.org"
      [ inbox; leaf "Sent Items"; leaf "projects" ];
    node "Archive" [ node "2023" [ node "Q4" [ leaf "December" ] ] ] ].

Definition namespace : Namespace :=
  {| GetDefaultFolder := λ _, Returns inbox; ns_Folders := roots |}.

Definition outlook : py Namespace := Returns namespace.

(** No read raises. *)
Definition all_readable : ReadFailures :=
  {| roots_fail := λ _, None;
     Name_fails := λ _, None;
     Folders_fail := λ _, None |}.

(** The subfolders of "Inbox" cannot be read, and neither can the name of
    "Q4". *)
Definition some_unreadable : ReadFailures :=
  {| roots_fail := λ _, None;
     Name_fails :=
       λ folder, if bool_decide (Name folder = "Q4")
                 then Some "com_error: name" else None;
     Folders_fail :=
       λ folder, if bool_decide (Name folder = "Inbox")
                 then Some "com_error: folders" else None |}.

(** The name of "Sent Items" cannot be read. *)
Definition sent_unreadable : ReadFailures :=
  {| roots_fail := λ _, None;
     Name_fails :=
       λ folder, if bool_decide (Name folder = "Sent Items")
                 then Some "com_error: name" else None;
     Folders_fail := λ _, None |}.

End Mailbox.

(** * The tools *)

Section Tools.

(** [str.lower()] of the Python runtime.  The tools use it to compare
    folder names and to match the search term; nothing is assumed of it. *)
Variable lower : string → string.

(** ** Constants and helpers *)

Definition MAX_DAYS : Z := 30.

(** [win32com.client.Dispatch("Outlook.Application").GetNamespace("MAPI")]
    is the environment: [dispatch : py Namespace]. *)
Definition safe_connect_to_outlook (dispatch : py Namespace) : py Namespace :=
  match dispatch with
  | Raises dispatch_error =>
      Raises ("Failed to connect to Outlook: " +:+ dispatch_error)
  | Returns namespace =>
      match GetDefaultFolder namespace 6 with
      | Raises connectivity_error =>
          Raises ("Inbox access failed: " +:+ connectivity_error)
      | Returns _ => Returns namespace
      end
  end.

Definition name_matches (folder_name : string) (folder : Folder) : bool :=
  bool_decide (lower (Name folder) = lower folder_name).

(** The loop over [namespace.Folders] with its inner loop over the
    subfolders. *)
Fixpoint find_in_roots (folder_name : string) (roots : list Folder)
  : option Folder :=
  match roots with
  | [] => None
  | folder :: rest =>
      if name_matches folder_name folder then Some folder
      else match List.find (name_matches folder_name) (Folders folder) with
           | Some subfolder => Some subfolder
           | None => find_in_roots folder_name rest
           end
  end.

Definition get_folder_by_name (namespace : Namespace)
    (folder_name : option string) : py Folder :=
  if str_falsy (or_empty folder_name) then GetDefaultFolder namespace 6
  else
    let folder_name := or_empty folder_name in
    let! inbox := GetDefaultFolder namespace 6 in
    match List.find (name_matches folder_name) (Folders inbox) with
    | Some folder => Returns folder
    | None =>
        match find_in_roots folder_name (ns_Folders namespace) with
        | Some folder => Returns folder
        | None => Raises ("Folder '" +:+ folder_name +:+ "' not found")
        end
    end.

(** The [email_data] dictionary literal, the same in the listing and in the
    search loop; the properties are read in the order of the literal. *)
Definition email_data (i : Z) (item : Item) (received_time : Z) : py Summary :=
  let! subject := Subject item in
  let! sender := SenderName item in
  let! sender_email := SenderEmailAddress item in
  let! unread := UnRead item in
  let! attachments := Attachments item in
  Returns {| s_id := pretty i;
             s_subject := or_empty subject;
             s_sender := or_empty sender;
             s_sender_email := or_empty sender_email;
             s_received_time := strftime received_time;
             s_read_status := if negb unread then "Read" else "Unread";
             s_has_attachments := (0 <? length attachments)%nat |}.

(** ** [outlook_list_recent_emails] *)

(** The [for i, item in enumerate(folder_items, 1)] loop of the listing.
    [i] is the position of [item] in the enumeration; it advances on every
    item, stored or not.  A property read that raises leaves the loop (and
    the tool) with the cache as filled so far. *)
Fixpoint list_loop (threshold_date : Z) (i : Z) (folder_items : list Item)
    (email_cache : gmap Z Item) (emails_list : list Summary)
  : gmap Z Item * py (list Summary) :=
  match folder_items with
  | [] => (email_cache, Returns emails_list)
  | item :: rest =>
      match ReceivedTime item with
      | Attr (Some received_time) =>
          if received_time <? threshold_date then
            (email_cache, Returns emails_list)
          else
            match email_data i item received_time with
            | Raises e => (email_cache, Raises e)
            | Returns data =>
                list_loop threshold_date (i + 1) rest
                  (<[i:=item]> email_cache) (emails_list ++ [data])
            end
      | _ => list_loop threshold_date (i + 1) rest email_cache emails_list
      end
  end.

(** [days] is declared [int], so [isinstance(days, int)] holds. *)
Definition days_out_of_range (days : Z) : bool :=
  (days <? 1) || (days >? MAX_DAYS).

Definition days_error : string :=
  "Days must be between 1 and " +:+ pretty MAX_DAYS.

(** The tool takes the connection [dispatch] and the clock reading [now]
    from its environment, and the global [email_cache] as state. *)
Definition outlook_list_recent_emails (dispatch : py Namespace) (now : Z)
    (days : Z) (folder_name : option string) (email_cache : gmap Z Item)
  : gmap Z Item * ToolResult :=
  if days_out_of_range days then (email_cache, Error days_error)
  else
    match safe_connect_to_outlook dispatch with
    | Raises e => (email_cache, Error e)
    | Returns namespace =>
        match get_folder_by_name namespace folder_name with
        | Raises e => (email_cache, Error e)
        | Returns folder =>
            let email_cache : gmap Z Item := ∅ in
            let threshold_date := now - timedelta_days days in
            match list_loop threshold_date 1 (Items folder) email_cache [] with
            | (email_cache, Raises e) => (email_cache, Error e)
            | (email_cache, Returns emails_list) =>
                (email_cache,
                 EmailList (Name folder) (length emails_list) emails_list)
            end
        end
    end.

(** ** [outlook_search_emails] *)

(** The condition of the [if] inside the per-item [try]: [or] reads the
    next property only when the previous one did not match. *)
Definition term_matches (search_term_lower : string) (item : Item) : py bool :=
  let! subject := Subject item in
  if str_in search_term_lower (lower (or_empty subject)) then Returns true
  else
    let! sender := SenderName item in
    if str_in search_term_lower (lower (or_empty sender)) then Returns true
    else
      let! body := Body item in
      Returns (str_in search_term_lower (lower (or_empty body))).

(** The body of the per-item [try]: [Returns None] when the term does not
    match, [Returns (Some email_data)] when the item is to be stored. *)
Definition search_try (search_term_lower : string) (i : Z) (item : Item)
    (received_time : Z) : py (option Summary) :=
  let! matched := term_matches search_term_lower item in
  if matched then
    let! data := email_data i item received_time in
    Returns (Some data)
  else Returns None.

Fixpoint search_loop (search_term_lower : string) (threshold_date : Z) (i : Z)
    (folder_items : list Item) (email_cache : gmap Z Item)
    (emails_list : list Summary) : gmap Z Item * list Summary :=
  match folder_items with
  | [] => (email_cache, emails_list)
  | item :: rest =>
      match ReceivedTime item with
      | Attr (Some received_time) =>
          if received_time <? threshold_date then (email_cache, emails_list)
          else
            match search_try search_term_lower i item received_time with
            | Returns (Some data) =>
                search_loop search_term_lower threshold_date (i + 1) rest
                  (<[i:=item]> email_cache) (emails_list ++ [data])
            | Returns None =>
                search_loop search_term_lower threshold_date (i + 1) rest
                  email_cache emails_list
            | Raises email_error =>
                (* except Exception as email_error: logging.warning(...) *)
                search_loop search_term_lower threshold_date (i + 1) rest
                  email_cache emails_list
            end
      | _ =>
          search_loop search_term_lower threshold_date (i + 1) rest
            email_cache emails_list
      end
  end.

Definition outlook_search_emails (dispatch : py Namespace) (now : Z)
    (search_term : string) (days : Z) (folder_name : option string)
    (email_cache : gmap Z Item) : gmap Z Item * ToolResult :=
  if str_falsy search_term then
    (email_cache, Error "Search term cannot be empty")
  else if days_out_of_range days then (email_cache, Error days_error)
  else
    match safe_connect_to_outlook dispatch with
    | Raises e => (email_cache, Error e)
    | Returns namespace =>
        match get_folder_by_name namespace folder_name with
        | Raises e => (email_cache, Error e)
        | Returns folder =>
            let email_cache : gmap Z Item := ∅ in
            let threshold_date := now - timedelta_days days in
            let search_term_lower := lower search_term in
            let '(email_cache, emails_list) :=
              search_loop search_term_lower threshold_date 1 (Items folder)
                email_cache [] in
            (email_cache,
             SearchList (Name folder) search_term (length emails_list)
               emails_list)
        end
    end.

(** ** [outlook_get_email_by_number] *)

(** [email_item.Attachments(i)], 1-based. *)
Definition Attachments_call (attachments : list Attachment) (i : Z)
  : py Attachment :=
  if i <? 1 then Raises "Array index out of bounds."
  else
    match attachments !! Z.to_nat (i - 1) with
    | Some attachment => Returns attachment
    | None => Raises "Array index out of bounds."
    end.

(** [range(start, stop)] *)
Definition range (start stop : Z) : list Z := seqZ start (stop - start).

(** [for i in range(1, Count + 1)], appending to
    [email_details["attachments"]]. *)
Fixpoint attachments_loop (attachments : list Attachment) (range : list Z)
    (acc : list AttachmentRecord) : py (list AttachmentRecord) :=
  match range with
  | [] => Returns acc
  | i :: rest =>
      let! attachment := Attachments_call attachments i in
      attachments_loop attachments rest
        (acc ++ [{| filename := FileName attachment;
                    size_bytes := Size attachment |}])
  end.

Definition email_details (email_item : Item) : py Detail :=
  let! subject := Subject email_item in
  let! sender := SenderName email_item in
  let! sender_email := SenderEmailAddress email_item in
  let! received_time :=
    match ReceivedTime email_item with
    | NoAttr => Raises "<unknown>.ReceivedTime"
    | Attr None => Returns ""
    | Attr (Some t) => Returns (strftime t)
    end in
  let! body := Body email_item in
  let! unread := UnRead email_item in
  let importance :=
    match Importance email_item with
    | Attr v => v
    | NoAttr => 1
    end in
  let! attachments := Attachments email_item in
  let has_attachments := (0 <? length attachments)%nat in
  let! records :=
    if has_attachments then
      attachments_loop attachments
        (range 1 (Z.of_nat (length attachments) + 1)) []
    else Returns [] in
  Returns {| d_subject := or_empty subject;
             d_sender := or_empty sender;
             d_sender_email := or_empty sender_email;
             d_received_time := received_time;
             d_body := or_empty body;
             d_read_status := if negb unread then "Read" else "Unread";
             d_importance := importance;
             d_has_attachments := has_attachments;
             d_attachments := records |}.

Definition no_listing_error : string :=
  "No emails have been listed recently. Use list_recent_emails or search_emails first.".

Definition not_found_error (email_number : Z) : string :=
  "Email #" +:+ pretty email_number +:+ " not found in the current listing.".

(** The tool reads the cache and leaves it as it is. *)
Definition outlook_get_email_by_number (email_number : Z)
    (email_cache : gmap Z Item) : ToolResult :=
  if bool_decide (size email_cache = 0%nat) then Error no_listing_error
  else
    match email_cache !! email_number with
    | None => Error (not_found_error email_number)
    | Some email_item =>
        match email_details email_item with
        | Returns details => EmailDetails details
        | Raises e => Error e
        end
    end.

(** ** The two loops as one traversal

    Both loops walk the items with a running position and, per item, either
    skip it, stop, store it, or (listing only) abort with an exception.  The
    lemmas below are proved once over this common shape. *)

Inductive outcome : Type :=
| Skip
| Stop
| Keep (data : Summary)
| Abort (e : string).

Definition list_step (threshold_date : Z) (i : Z) (item : Item) : outcome :=
  match ReceivedTime item with
  | Attr (Some received_time) =>
      if received_time <? threshold_date then Stop
      else match email_data i item received_time with
           | Raises e => Abort e
           | Returns data => Keep data
           end
  | _ => Skip
  end.

Definition search_step (search_term_lower : string) (threshold_date : Z)
    (i : Z) (item : Item) : outcome :=
  match ReceivedTime item with
  | Attr (Some received_time) =>
      if received_time <? threshold_date then Stop
      else match search_try search_term_lower i item received_time with
           | Returns (Some data) => Keep data
           | _ => Skip
           end
  | _ => Skip
  end.

(** What one traversal stores: the position, the item and its summary. *)
Record entry : Type := {
  e_key : Z;
  e_item : Item;
  e_data : Summary
}.

Fixpoint kept (step : Z → Item → outcome) (i : Z) (items : list Item)
  : list entry :=
  match items with
  | [] => []
  | item :: rest =>
      match step i item with
      | Skip => kept step (i + 1) rest
      | Keep data =>
          {| e_key := i; e_item := item; e_data := data |}
          :: kept step (i + 1) rest
      | Stop | Abort _ => []
      end
  end.

Fixpoint aborted (step : Z → Item → outcome) (i : Z) (items : list Item)
  : option string :=
  match items with
  | [] => None
  | item :: rest =>
      match step i item with
      | Skip | Keep _ => aborted step (i + 1) rest
      | Stop => None
      | Abort e => Some e
      end
  end.

Definition store (email_cache : gmap Z Item) (l : list entry) : gmap Z Item :=
  foldl (λ c e, <[e_key e := e_item e]> c) email_cache l.

Definition pairs (l : list entry) : list (Z * Item) :=
  (λ e, (e_key e, e_item e)) <$> l.

(** The received time the loops compare with the threshold, if any. *)
Definition received (item : Item) : option Z :=
  match ReceivedTime item with
  | Attr (Some t) => Some t
  | _ => None
  end.

(** An item at which the loops [break]. *)
Definition stale (threshold_date : Z) (item : Item) : Prop :=
  ∃ t, received item = Some t ∧ t < threshold_date.

(** The order [folder_items.Sort("[ReceivedTime]", True)] leaves the items
    in: newest first, among the items that have a received time. *)
Definition newest_first (items : list Item) : Prop :=
  StronglySorted (λ a b, b ≤ a) (omap received items).

Global Instance newest_first_dec (items : list Item) :
  Decision (newest_first items).
Proof. unfold newest_first. apply _. Defined.

(** The tool's answer for a cached handle. *)
Definition details_result (email_item : Item) : ToolResult :=
  match email_details email_item with
  | Returns details => EmailDetails details
  | Raises e => Error e
  end.



(** The record appended for one attachment. *)
Definition attachment_record (a : Attachment) : AttachmentRecord :=
  {| filename := FileName a; size_bytes := Size a |}.

(** Every property [outlook_get_email_by_number] reads can be read. *)
Definition readable (item : Item) : Prop :=
  (∃ v, Subject item = Returns v) ∧
  (∃ v, SenderName item = Returns v) ∧
  (∃ v, SenderEmailAddress item = Returns v) ∧
  (∃ v, ReceivedTime item = Attr v) ∧
  (∃ v, Body item = Returns v) ∧
  (∃ v, UnRead item = Returns v) ∧
  (∃ v, Attachments item = Returns v).

(** A read of the subject, the sender name or the body that raises while
    the search examines [item]: the subject is read first; the sender name is
    read by the test or, after a subject match, by [email_data]; the body is
    read only when neither subject nor sender name matched. *)
Inductive read_raises (search_term_lower : string) (item : Item) (e : string)
  : Prop :=
| subject_raises :
    Subject item = Raises e → read_raises search_term_lower item e
| sender_raises (subject : option string) :
    Subject item = Returns subject →
    SenderName item = Raises e →
    read_raises search_term_lower item e
| body_raises (subject sender : option string) :
    Subject item = Returns subject →
    SenderName item = Returns sender →
    str_in search_term_lower (lower (or_empty subject)) = false →
    str_in search_term_lower (lower (or_empty sender)) = false →
    Body item = Raises e →
    read_raises search_term_lower item e.

(** The summary [s] of a listing or search that left the cache [c] leads
    back to its message: its [id] is the decimal string of exactly one
    integer [k], [c] holds under [k] the item the summary was built from, and
    [outlook_get_email_by_number k] answers from that item. *)
Definition summary_resolves (c : gmap Z Item) (s : Summary) : Prop :=
  ∃ (k : Z) (item : Item) (t : Z),
    s_id s = pretty k ∧
    (∀ k' : Z, s_id s = pretty k' → k' = k) ∧
    c !! k = Some item ∧
    ReceivedTime item = Attr (Some t) ∧
    email_data k item t = Returns s ∧
    outlook_get_email_by_number k c = details_result item ∧
    (∀ d : Detail,
       outlook_get_email_by_number k c = EmailDetails d →
       d_subject d = s_subject s ∧ d_sender d = s_sender s ∧
       d_sender_email d = s_sender_email s ∧
       d_received_time d = s_received_time s ∧
       d_read_status d = s_read_status s ∧
       d_has_attachments d = s_has_attachments s) ∧
    (∀ body : option string,
       Body item = Returns body →
       ∃ d : Detail,
         outlook_get_email_by_number k c = EmailDetails d ∧
         d_body d = or_empty body).

(** One cache generation: the [N] summaries [es] and the cache [c] a call
    leaves behind over the enumerated [items], with [keys] the cache keys in
    the order of the summaries. *)
Definition generation (items : list Item) (N : nat) (es : list Summary)
    (c : gmap Z Item) (keys : list Z) : Prop :=
  length es = N ∧ length keys = N ∧ size c = N ∧
  s_id <$> es = pretty <$> keys ∧
  StronglySorted Z.lt keys ∧
  (∀ k : Z, k ∈ keys →
     1 ≤ k ≤ Z.of_nat (length items) ∧
     ∃ item : Item,
       items !! Z.to_nat (k - 1) = Some item ∧ c !! k = Some item ∧
       outlook_get_email_by_number k c = details_result item) ∧
  (∀ k : Z, k ∉ keys →
     c !! k = None ∧
     outlook_get_email_by_number k c
       = Error (if bool_decide (N = 0%nat) then no_listing_error
                else not_found_error k)).

(** ** [outlook_list_folders] *)

(** The newline character of the f-strings. *)
Definition nl : string := String "010" "".

Definition read_roots (failures : ReadFailures) (namespace : Namespace)
  : py (list Folder) :=
  match roots_fail failures namespace with
  | Some e => Raises e
  | None => Returns (ns_Folders namespace)
  end.

Definition read_Name (failures : ReadFailures) (folder : Folder) : py string :=
  match Name_fails failures folder with
  | Some e => Raises e
  | None => Returns (Name folder)
  end.

Definition read_Folders (failures : ReadFailures) (folder : Folder)
  : py (list Folder) :=
  match Folders_fail failures folder with
  | Some e => Raises e
  | None => Returns (Folders folder)
  end.

(** The innermost loop, inside the [try]: a read that raises ends it, and
    [except: pass] keeps the lines appended so far. *)
Fixpoint third_loop (failures : ReadFailures) (subsubfolders : list Folder)
    (result : string) : string :=
  match subsubfolders with
  | [] => result
  | subsubfolder :: rest =>
      match read_Name failures subsubfolder with
      | Raises _ => result
      | Returns name =>
          third_loop failures rest (result +:+ ("    - " +:+ name +:+ nl))
      end
  end.

(** [try: for subsubfolder in subfolder.Folders: ... except: pass] *)
Definition third_level (failures : ReadFailures) (subfolder : Folder)
    (result : string) : string :=
  match read_Folders failures subfolder with
  | Raises _ => result
  | Returns subsubfolders => third_loop failures subsubfolders result
  end.

Fixpoint second_loop (failures : ReadFailures) (subfolders : list Folder)
    (result : string) : py string :=
  match subfolders with
  | [] => Returns result
  | subfolder :: rest =>
      let! name := read_Name failures subfolder in
      let result := result +:+ ("  - " +:+ name +:+ nl) in
      let result := third_level failures subfolder result in
      second_loop failures rest result
  end.

Fixpoint first_loop (failures : ReadFailures) (folders : list Folder)
    (result : string) : py string :=
  match folders with
  | [] => Returns result
  | folder :: rest =>
      let! name := read_Name failures folder in
      let result := result +:+ ("- " +:+ name +:+ nl) in
      let! subfolders := read_Folders failures folder in
      let! result := second_loop failures subfolders result in
      first_loop failures rest result
  end.

(** The tool returns a string: the tree of the root folders, their
    subfolders and one more level, or the error text. *)
Definition outlook_list_folders (dispatch : py Namespace)
    (failures : ReadFailures) : string :=
  match safe_connect_to_outlook dispatch with
  | Raises e => "Error listing mail folders: " +:+ e
  | Returns namespace =>
      let result := "Available mail folders:" +:+ nl +:+ nl in
      match (let! folders := read_roots failures namespace in
             first_loop failures folders result) with
      | Returns result => result
      | Raises e => "Error listing mail folders: " +:+ e
      end
  end.

(** ** Further notions for the properties *)

(** The folders [get_folder_by_name] compares with the requested name, in
    the order in which it does: the subfolders of the inbox, then each root
    folder followed by its subfolders. *)
Definition candidates (inbox : Folder) (roots : list Folder) : list Folder :=
  Folders inbox ++ flat_map (λ folder, folder :: Folders folder) roots.

(** The lines of the folder tree, three levels deep, parents before
    children. *)
Definition tree_lines (roots : list Folder) : list string :=
  flat_map
    (λ folder,
       ("- " +:+ Name folder +:+ nl)
       :: flat_map
            (λ subfolder,
               ("  - " +:+ Name subfolder +:+ nl)
               :: ((λ subsubfolder, "    - " +:+ Name subsubfolder +:+ nl)
                     <$> Folders subfolder))
            (Folders folder))
    roots.

(** The lines put one after the other. *)
Definition join (lines : list string) : string :=
  foldr String.append "" lines.

(** The names of the folders of [l] up to the first one whose name cannot
    be read. *)
Fixpoint names_read (failures : ReadFailures) (l : list Folder) : list string :=
  match l with
  | [] => []
  | folder :: rest =>
      match Name_fails failures folder with
      | None => Name folder :: names_read failures rest
      | Some _ => []
      end
  end.

(** The third-level lines below [subfolder] that make it into the text. *)
Definition third_lines (failures : ReadFailures) (subfolder : Folder)
  : list string :=
  match Folders_fail failures subfolder with
  | Some _ => []
  | None =>
      (λ name, "    - " +:+ name +:+ nl)
        <$> names_read failures (Folders subfolder)
  end.

(** The lines of the folder tree with the third level as far as it could be
    read. *)
Definition tree_lines_read (failures : ReadFailures) (roots : list Folder)
  : list string :=
  flat_map
    (λ folder,
       ("- " +:+ Name folder +:+ nl)
       :: flat_map
            (λ subfolder,
               ("  - " +:+ Name subfolder +:+ nl)
               :: third_lines failures subfolder)
            (Folders folder))
    roots.

(** The reads of the first two levels below [folder] succeed: its name, its
    subfolders and the name of each subfolder. *)
Definition folder_readable (failures : ReadFailures) (folder : Folder) : Prop :=
  Name_fails failures folder = None ∧
  Folders_fail failures folder = None ∧
  Forall (λ subfolder, Name_fails failures subfolder = None) (Folders folder).

(** The reads of the first two levels succeed: the root collection and
    every root folder. *)
Definition two_levels_readable (failures : ReadFailures)
    (namespace : Namespace) : Prop :=
  roots_fail failures namespace = None ∧
  Forall (folder_readable failures) (ns_Folders namespace).

(** A read of the first two levels below [folder] raises [e]: its name, or
    its subfolders, or the name of a subfolder after readable ones. *)
Definition folder_read_raises (failures : ReadFailures) (folder : Folder)
    (e : string) : Prop :=
  Name_fails failures folder = Some e ∨
  (Name_fails failures folder = None ∧
   Folders_fail failures folder = Some e) ∨
  (Name_fails failures folder = None ∧
   Folders_fail failures folder = None ∧
   ∃ (before after : list Folder) (subfolder : Folder),
     Folders folder = before ++ subfolder :: after ∧
     Forall (λ s, Name_fails failures s = None) before ∧
     Name_fails failures subfolder = Some e).

(** Below readable first two levels, every third-level read succeeds too. *)
Definition third_level_readable (failures : ReadFailures)
    (namespace : Namespace) : Prop :=
  Forall
    (λ folder,
       Forall
         (λ subfolder,
            Folders_fail failures subfolder = None ∧
            Forall (λ subsubfolder, Name_fails failures subsubfolder = None)
              (Folders subfolder))
         (Folders folder))
    (ns_Folders namespace).

(** The key and the handle of every cached entry are among those of a
    second cache. *)
Definition cache_within (c1 c2 : gmap Z Item) : Prop :=
  ∀ (k : Z) (item : Item), c1 !! k = Some item → c2 !! k = Some item.

(** * Lemmas *)

(** ** Strings *)

Lemma str_app_assoc (a b c : string) : (a +:+ b) +:+ c = a +:+ (b +:+ c).
Proof.
  induction a as [|ch a IH]; [done|].
  change (String ch ((a +:+ b) +:+ c) = String ch (a +:+ (b +:+ c))).
  by rewrite IH.
Qed.

Lemma str_app_nil_r (a : string) : a +:+ "" = a.
Proof.
  induction a as [|ch a IH]; [done|].
  change (String ch (a +:+ "") = String ch a). by rewrite IH.
Qed.



Section Traversal.

Variable step : Z → Item → outcome.

Lemma kept_spec (items : list Item) : ∀ (i : Z) (e : entry),
  e ∈ kept step i items →
  i ≤ e_key e < i + Z.of_nat (length items) ∧
  items !! Z.to_nat (e_key e - i) = Some (e_item e) ∧
  step (e_key e) (e_item e) = Keep (e_data e).
Proof.
  induction items as [|item rest IH]; intros i e He; simpl in He.
  - by apply elem_of_nil in He.
  - destruct (step i item) eqn:Hstep.
    + apply IH in He as (Hr & Hl & Hs).
      split; [simpl length; lia|]. split; [|done].
      replace (Z.to_nat (e_key e - i)) with (S (Z.to_nat (e_key e - (i + 1))))
        by lia.
      done.
    + by apply elem_of_nil in He.
    + apply elem_of_cons in He as [->|He].
      * simpl. split; [lia|]. rewrite Z.sub_diag. done.
      * apply IH in He as (Hr & Hl & Hs).
        split; [simpl length; lia|]. split; [|done].
        replace (Z.to_nat (e_key e - i))
          with (S (Z.to_nat (e_key e - (i + 1)))) by lia.
        done.
    + by apply elem_of_nil in He.
Qed.

Lemma kept_keys_sorted (items : list Item) : ∀ i : Z,
  StronglySorted Z.lt (e_key <$> kept step i items).
Proof.
  induction items as [|item rest IH]; intros i; simpl.
  - constructor.
  - destruct (step i item); try constructor; auto.
    apply Forall_fmap, Forall_forall. intros e He.
    apply kept_spec in He. simpl. lia.
Qed.

Lemma kept_keys_NoDup (items : list Item) (i : Z) :
  NoDup (e_key <$> kept step i items).
Proof.
  pose proof (kept_keys_sorted items i) as Hs.
  induction Hs as [|k ks Hs IH Hk]; constructor; auto.
  intros Hin. rewrite Forall_forall in Hk. apply Hk in Hin. lia.
Qed.

(** Nothing at or after a stopping item is stored. *)
Lemma kept_app_stop (pre post : list Item) (x : Item) : ∀ i : Z,
  step (i + Z.of_nat (length pre)) x = Stop →
  kept step i (pre ++ x :: post) = kept step i pre.
Proof.
  induction pre as [|y pre IH]; intros i Hx; simpl in *.
  - rewrite Z.add_0_r in Hx. by rewrite Hx.
  - rewrite IH; [done|]. rewrite <- Hx. f_equal. lia.
Qed.

Lemma aborted_app_stop (pre post : list Item) (x : Item) : ∀ i : Z,
  step (i + Z.of_nat (length pre)) x = Stop →
  aborted step i (pre ++ x :: post) = aborted step i pre.
Proof.
  induction pre as [|y pre IH]; intros i Hx; simpl in *.
  - rewrite Z.add_0_r in Hx. by rewrite Hx.
  - rewrite IH; [done|]. rewrite <- Hx. f_equal. lia.
Qed.

End Traversal.

Lemma store_pairs (l : list entry) : ∀ c : gmap Z Item,
  NoDup (e_key <$> l) → store c l = list_to_map (pairs l) ∪ c.
Proof.
  induction l as [|e l IH]; intros c Hnd.
  - cbn. by rewrite (left_id_L ∅ (∪)).
  - rewrite fmap_cons in Hnd. apply NoDup_cons in Hnd as [Hnotin Hnd].
    change (store c (e :: l)) with (store (<[e_key e := e_item e]> c) l).
    rewrite IH by done.
    change (pairs (e :: l)) with ((e_key e, e_item e) :: pairs l).
    rewrite list_to_map_cons, <- insert_union_l.
    symmetry. apply insert_union_r.
    apply not_elem_of_list_to_map. unfold pairs.
    rewrite <- list_fmap_compose. exact Hnotin.
Qed.

Lemma store_empty (l : list entry) :
  NoDup (e_key <$> l) → store ∅ l = list_to_map (pairs l).
Proof. intros Hnd. rewrite store_pairs by done. by rewrite (right_id_L ∅ (∪)). Qed.

Lemma pairs_keys (l : list entry) : (pairs l).*1 = e_key <$> l.
Proof. unfold pairs. by rewrite <- list_fmap_compose. Qed.

Lemma store_lookup_Some (l : list entry) (k : Z) (x : Item) :
  NoDup (e_key <$> l) →
  store ∅ l !! k = Some x ↔ ∃ e, e ∈ l ∧ e_key e = k ∧ e_item e = x.
Proof.
  intros Hnd. rewrite store_empty by done.
  rewrite <- elem_of_list_to_map by (by rewrite pairs_keys).
  unfold pairs. rewrite list_elem_of_fmap. split.
  - intros (e & Heq & He). inversion Heq. eauto.
  - intros (e & He & <- & <-). eauto.
Qed.

Lemma store_lookup_None (l : list entry) (k : Z) :
  NoDup (e_key <$> l) →
  store ∅ l !! k = None ↔ k ∉ e_key <$> l.
Proof.
  intros Hnd. rewrite store_empty by done.
  rewrite <- not_elem_of_list_to_map. by rewrite pairs_keys.
Qed.

Lemma store_size (l : list entry) :
  NoDup (e_key <$> l) → size (store ∅ l) = length l.
Proof.
  intros Hnd. rewrite store_empty by done.
  rewrite <- length_map_to_list.
  rewrite map_to_list_to_map by (by rewrite pairs_keys).
  unfold pairs. by rewrite length_fmap.
Qed.

(** The loops of the source are this traversal. *)
Lemma list_loop_step (threshold_date i : Z) (item : Item) (rest : list Item)
    (c : gmap Z Item) (es : list Summary) :
  list_loop threshold_date i (item :: rest) c es =
    match list_step threshold_date i item with
    | Skip => list_loop threshold_date (i + 1) rest c es
    | Stop => (c, Returns es)
    | Keep data =>
        list_loop threshold_date (i + 1) rest (<[i:=item]> c) (es ++ [data])
    | Abort e => (c, Raises e)
    end.
Proof.
  simpl. unfold list_step.
  destruct (ReceivedTime item) as [|[t|]]; try done.
  destruct (t <? threshold_date); try done.
  by destruct (email_data i item t).
Qed.

Lemma search_loop_step (stl : string) (threshold_date i : Z) (item : Item)
    (rest : list Item) (c : gmap Z Item) (es : list Summary) :
  search_loop stl threshold_date i (item :: rest) c es =
    match search_step stl threshold_date i item with
    | Skip => search_loop stl threshold_date (i + 1) rest c es
    | Keep data =>
        search_loop stl threshold_date (i + 1) rest (<[i:=item]> c)
          (es ++ [data])
    | Stop | Abort _ => (c, es)
    end.
Proof.
  simpl. unfold search_step.
  destruct (ReceivedTime item) as [|[t|]]; try done.
  destruct (t <? threshold_date); try done.
  by destruct (search_try stl i item t) as [[data|]|e].
Qed.

Lemma list_loop_kept (threshold_date : Z) (items : list Item) :
  ∀ (i : Z) (c : gmap Z Item) (es : list Summary),
    list_loop threshold_date i items c es =
      (store c (kept (list_step threshold_date) i items),
       match aborted (list_step threshold_date) i items with
       | Some e => Raises e
       | None =>
           Returns (es ++ (e_data <$> kept (list_step threshold_date) i items))
       end).
Proof.
  induction items as [|item rest IH]; intros i c es.
  - simpl. by rewrite app_nil_r.
  - rewrite list_loop_step. cbn [kept aborted].
    destruct (list_step threshold_date i item) as [| |data|e].
    + apply IH.
    + simpl. by rewrite app_nil_r.
    + rewrite IH. cbn. destruct (aborted _ _ rest); [done|].
      by rewrite <- app_assoc.
    + done.
Qed.

Lemma search_loop_kept (stl : string) (threshold_date : Z) (items : list Item) :
  ∀ (i : Z) (c : gmap Z Item) (es : list Summary),
    search_loop stl threshold_date i items c es =
      (store c (kept (search_step stl threshold_date) i items),
       es ++ (e_data <$> kept (search_step stl threshold_date) i items)).
Proof.
  induction items as [|item rest IH]; intros i c es.
  - simpl. by rewrite app_nil_r.
  - rewrite search_loop_step. cbn [kept].
    destruct (search_step stl threshold_date i item) as [| |data|e].
    + apply IH.
    + simpl. by rewrite app_nil_r.
    + rewrite IH. cbn. by rewrite <- app_assoc.
    + simpl. by rewrite app_nil_r.
Qed.

(** The search never aborts. *)
Lemma search_never_aborts (stl : string) (threshold_date : Z)
    (items : list Item) : ∀ i : Z,
  aborted (search_step stl threshold_date) i items = None.
Proof.
  induction items as [|item rest IH]; intros i; simpl; [done|].
  unfold search_step. destruct (ReceivedTime item) as [|[t|]]; auto.
  destruct (t <? threshold_date); auto.
  destruct (search_try stl i item t) as [[data|]|e]; auto.
Qed.

(** The tools after validation, connection and folder resolution. *)
Lemma list_tool_run (dispatch : py Namespace) (now days : Z)
    (folder_name : option string) (c : gmap Z Item)
    (namespace : Namespace) (folder : Folder) :
  days_out_of_range days = false →
  safe_connect_to_outlook dispatch = Returns namespace →
  get_folder_by_name namespace folder_name = Returns folder →
  outlook_list_recent_emails dispatch now days folder_name c =
    let step := list_step (now - timedelta_days days) in
    let K := kept step 1 (Items folder) in
    (store ∅ K,
     match aborted step 1 (Items folder) with
     | Some e => Error e
     | None => EmailList (Name folder) (length K) (e_data <$> K)
     end).
Proof.
  intros Hdays Hconn Hfolder. unfold outlook_list_recent_emails.
  rewrite Hdays, Hconn, Hfolder. cbv zeta. rewrite list_loop_kept.
  destruct (aborted _ _ _); [done|]. simpl. by rewrite length_fmap.
Qed.

Lemma search_tool_run (dispatch : py Namespace) (now : Z) (search_term : string)
    (days : Z) (folder_name : option string) (c : gmap Z Item)
    (namespace : Namespace) (folder : Folder) :
  str_falsy search_term = false →
  days_out_of_range days = false →
  safe_connect_to_outlook dispatch = Returns namespace →
  get_folder_by_name namespace folder_name = Returns folder →
  outlook_search_emails dispatch now search_term days folder_name c =
    let K := kept (search_step (lower search_term) (now - timedelta_days days))
               1 (Items folder) in
    (store ∅ K,
     SearchList (Name folder) search_term (length K) (e_data <$> K)).
Proof.
  intros Hterm Hdays Hconn Hfolder. unfold outlook_search_emails.
  rewrite Hterm, Hdays, Hconn, Hfolder. cbv zeta. rewrite search_loop_kept.
  simpl. by rewrite length_fmap.
Qed.

(** A successful answer tells that the three early stages passed. *)
Lemma list_tool_success (dispatch : py Namespace) (now days : Z)
    (folder_name : option string) (c c' : gmap Z Item)
    (name : string) (N : nat) (es : list Summary) :
  outlook_list_recent_emails dispatch now days folder_name c
    = (c', EmailList name N es) →
  days_out_of_range days = false ∧
  ∃ namespace folder,
    safe_connect_to_outlook dispatch = Returns namespace ∧
    get_folder_by_name namespace folder_name = Returns folder.
Proof.
  unfold outlook_list_recent_emails.
  destruct (days_out_of_range days); [discriminate|].
  destruct (safe_connect_to_outlook dispatch) as [ns|]; [|discriminate].
  destruct (get_folder_by_name ns folder_name) as [folder|] eqn:Hfolder;
    [|discriminate].
  intros _. repeat split. by exists ns, folder.
Qed.

Lemma search_tool_success (dispatch : py Namespace) (now : Z)
    (search_term : string) (days : Z)
    (folder_name : option string) (c c' : gmap Z Item)
    (name st : string) (N : nat) (es : list Summary) :
  outlook_search_emails dispatch now search_term days folder_name c
    = (c', SearchList name st N es) →
  str_falsy search_term = false ∧ days_out_of_range days = false ∧
  ∃ namespace folder,
    safe_connect_to_outlook dispatch = Returns namespace ∧
    get_folder_by_name namespace folder_name = Returns folder.
Proof.
  unfold outlook_search_emails.
  destruct (str_falsy search_term); [discriminate|].
  destruct (days_out_of_range days); [discriminate|].
  destruct (safe_connect_to_outlook dispatch) as [ns|]; [|discriminate].
  destruct (get_folder_by_name ns folder_name) as [folder|] eqn:Hfolder;
    [|discriminate].
  intros _. repeat split. by exists ns, folder.
Qed.

(** ** Reading the cache *)

Lemma get_hit (c : gmap Z Item) (n : Z) (item : Item) :
  c !! n = Some item →
  outlook_get_email_by_number n c = details_result item.
Proof.
  intros Hn. unfold outlook_get_email_by_number.
  rewrite bool_decide_eq_false_2.
  - by rewrite Hn.
  - intros Hsize. apply map_size_empty_iff in Hsize.
    rewrite Hsize, lookup_empty in Hn. discriminate.
Qed.

Lemma get_miss (c : gmap Z Item) (n : Z) :
  c !! n = None →
  outlook_get_email_by_number n c =
    Error (if bool_decide (size c = 0%nat) then no_listing_error
           else not_found_error n).
Proof.
  intros Hn. unfold outlook_get_email_by_number.
  destruct (bool_decide (size c = 0%nat)); [done|]. by rewrite Hn.
Qed.

Lemma errors_differ (n : Z) : no_listing_error ≠ not_found_error n.
Proof. unfold no_listing_error, not_found_error. cbn. discriminate. Qed.

(** ** Attachments *)

Lemma Attachments_call_middle (pre rest : list Attachment) (a : Attachment) :
  Attachments_call (pre ++ a :: rest) (1 + Z.of_nat (length pre)) = Returns a.
Proof.
  unfold Attachments_call.
  destruct (Z.ltb_spec (1 + Z.of_nat (length pre)) 1); [lia|].
  replace (Z.to_nat (1 + Z.of_nat (length pre) - 1)) with (length pre) by lia.
  by rewrite list_lookup_middle.
Qed.

Lemma attachments_loop_all (rest : list Attachment) :
  ∀ (pre : list Attachment) (acc : list AttachmentRecord),
    attachments_loop (pre ++ rest)
      (seqZ (1 + Z.of_nat (length pre)) (Z.of_nat (length rest))) acc
    = Returns (acc ++ (attachment_record <$> rest)).
Proof.
  induction rest as [|a rest IH]; intros pre acc.
  - simpl. by rewrite app_nil_r.
  - rewrite seqZ_cons by (simpl length; lia). cbn [attachments_loop].
    rewrite Attachments_call_middle. cbn [bind].
    replace (pre ++ a :: rest) with ((pre ++ [a]) ++ rest)
      by (by rewrite <- app_assoc).
    replace (Z.succ (1 + Z.of_nat (length pre)))
      with (1 + Z.of_nat (length (pre ++ [a])))
      by (rewrite length_app; simpl length; lia).
    replace (Z.pred (Z.of_nat (length (a :: rest))))
      with (Z.of_nat (length rest)) by (simpl length; lia).
    rewrite IH. by rewrite <- app_assoc.
Qed.

Lemma attachments_loop_range (atts : list Attachment) :
  attachments_loop atts (range 1 (Z.of_nat (length atts) + 1)) []
  = Returns (attachment_record <$> atts).
Proof.
  unfold range.
  replace (Z.of_nat (length atts) + 1 - 1) with (Z.of_nat (length atts)) by lia.
  exact (attachments_loop_all atts [] []).
Qed.

(** What [email_details] answers once every read succeeds. *)
Lemma email_details_attachments (item : Item) (atts : list Attachment)
    (d : Detail) :
  Attachments item = Returns atts →
  email_details item = Returns d →
  d_has_attachments d = (0 <? length atts)%nat ∧
  d_attachments d = attachment_record <$> atts.
Proof.
  intros Hatts. unfold email_details. rewrite Hatts.
  destruct (Subject item) as [vs|]; [|discriminate].
  destruct (SenderName item) as [vn|]; [|discriminate].
  destruct (SenderEmailAddress item) as [va|]; [|discriminate].
  destruct (ReceivedTime item) as [|[t|]]; [discriminate| |];
    (destruct (Body item) as [vb|]; [|discriminate]);
    (destruct (UnRead item) as [vu|]; [|discriminate]); cbn [bind];
    rewrite attachments_loop_range;
    (destruct atts as [|a0 atts]; cbn; intros [= <-]; done).
Qed.

Lemma email_details_readable (item : Item) :
  readable item → ∃ d, email_details item = Returns d.
Proof.
  intros ([s Hs] & [n Hn] & [a Ha] & [t Ht] & [b Hb] & [u Hu] & [l Hl]).
  unfold email_details. rewrite Hs, Hn, Ha, Ht, Hb, Hu, Hl.
  destruct t; cbn [bind]; rewrite attachments_loop_range;
    destruct l; cbn; eauto.
Qed.

(** ** The steps *)

Lemma list_step_Keep (threshold_date i : Z) (item : Item) (data : Summary) :
  list_step threshold_date i item = Keep data →
  ∃ t, ReceivedTime item = Attr (Some t) ∧ threshold_date ≤ t ∧
       email_data i item t = Returns data.
Proof.
  unfold list_step. destruct (ReceivedTime item) as [|[t|]]; try done.
  destruct (Z.ltb_spec t threshold_date); try done.
  destruct (email_data i item t) eqn:Hd; try done.
  intros [= <-]. eauto.
Qed.

Lemma search_step_Keep (stl : string) (threshold_date i : Z) (item : Item)
    (data : Summary) :
  search_step stl threshold_date i item = Keep data →
  ∃ t, ReceivedTime item = Attr (Some t) ∧ threshold_date ≤ t ∧
       term_matches stl item = Returns true ∧
       email_data i item t = Returns data.
Proof.
  unfold search_step. destruct (ReceivedTime item) as [|[t|]]; try done.
  destruct (Z.ltb_spec t threshold_date); try done.
  unfold search_try.
  destruct (term_matches stl item) as [[|]|]; try done. cbn.
  destruct (email_data i item t) eqn:Hd; try done.
  intros [= <-]. eauto.
Qed.

Lemma search_step_not_Abort (stl : string) (threshold_date i : Z) (item : Item)
    (e : string) :
  search_step stl threshold_date i item ≠ Abort e.
Proof.
  unfold search_step. destruct (ReceivedTime item) as [|[t|]]; try done.
  destruct (t <? threshold_date); try done.
  by destruct (search_try stl i item t) as [[d|]|].
Qed.

Lemma list_step_stale (threshold_date i : Z) (item : Item) :
  stale threshold_date item → list_step threshold_date i item = Stop.
Proof.
  intros (t & Ht & Hlt). unfold received in Ht. unfold list_step.
  destruct (ReceivedTime item) as [|[t'|]]; try done.
  injection Ht as ->. by destruct (Z.ltb_spec t threshold_date); [|lia].
Qed.

Lemma search_step_stale (stl : string) (threshold_date i : Z) (item : Item) :
  stale threshold_date item → search_step stl threshold_date i item = Stop.
Proof.
  intros (t & Ht & Hlt). unfold received in Ht. unfold search_step.
  destruct (ReceivedTime item) as [|[t'|]]; try done.
  injection Ht as ->. by destruct (Z.ltb_spec t threshold_date); [|lia].
Qed.

Lemma search_step_Stop (stl : string) (threshold_date i : Z) (item : Item) :
  search_step stl threshold_date i item = Stop → stale threshold_date item.
Proof.
  unfold search_step, stale, received.
  destruct (ReceivedTime item) as [|[t|]]; try done.
  destruct (Z.ltb_spec t threshold_date).
  - eauto.
  - by destruct (search_try stl i item t) as [[d|]|].
Qed.

Lemma read_raises_try (stl : string) (i : Z) (item : Item) (t : Z)
    (e : string) :
  read_raises stl item e → search_try stl i item t = Raises e.
Proof.
  unfold search_try, term_matches, email_data.
  intros [Hs | vs Hs Hn | vs vn Hs Hn Hms Hmn Hb].
  - by rewrite Hs.
  - rewrite Hs, Hn. cbn.
    by destruct (str_in stl (lower (or_empty vs))).
  - rewrite Hs, Hn, Hb. cbn. by rewrite Hms, Hmn.
Qed.

(** In the sorted order no item before one inside the window is stale. *)
Lemma newest_first_fresh (threshold_date : Z) (items : list Item) :
  newest_first items →
  ∀ (n m : nat) (x y : Item) (t : Z),
    items !! n = Some x → received x = Some t → threshold_date ≤ t →
    (m < n)%nat → items !! m = Some y → ¬ stale threshold_date y.
Proof.
  unfold newest_first.
  induction items as [|z rest IH]; intros Hs n m x y t Hx Ht Hth Hmn Hy.
  - done.
  - destruct n as [|n]; [lia|]. simpl in Hx.
    assert (Hrest : StronglySorted (λ a b : Z, b ≤ a) (omap received rest)).
    { simpl in Hs. destruct (received z); [|done].
      by apply StronglySorted_inv in Hs as [? _]. }
    destruct m as [|m].
    + simpl in Hy. injection Hy as ->. intros (ty & Hty & Hlt).
      simpl in Hs. rewrite Hty in Hs.
      apply StronglySorted_inv in Hs as [_ Hall].
      rewrite Forall_forall in Hall.
      assert (Hin : t ∈ omap received rest).
      { apply list_elem_of_omap. exists x. split; [|done].
        by eapply list_elem_of_lookup_2. }
      apply Hall in Hin. lia.
    + simpl in Hy. eapply (IH Hrest n m); eauto. lia.
Qed.

Lemma search_loop_app (stl : string) (threshold_date : Z)
    (pre rest : list Item) :
  Forall (λ y, ¬ stale threshold_date y) pre →
  ∀ (i : Z) (c : gmap Z Item) (es : list Summary),
    search_loop stl threshold_date i (pre ++ rest) c es =
      let '(c1, es1) := search_loop stl threshold_date i pre c es in
      search_loop stl threshold_date (i + Z.of_nat (length pre)) rest c1 es1.
Proof.
  induction pre as [|y pre IH]; intros Hfresh i c es.
  - simpl. by rewrite Z.add_0_r.
  - apply Forall_cons in Hfresh as [Hy Hfresh].
    rewrite <- app_comm_cons, !search_loop_step.
    replace (i + Z.of_nat (length (y :: pre)))
      with (i + 1 + Z.of_nat (length pre)) by (simpl length; lia).
    destruct (search_step stl threshold_date i y) as [| |d|e] eqn:Hstep.
    + by apply IH.
    + by apply search_step_Stop in Hstep.
    + by apply IH.
    + by apply search_step_not_Abort in Hstep.
Qed.

Lemma sorted_prefix_fresh (threshold_date : Z) (pre post : list Item)
    (x : Item) (t : Z) :
  newest_first (pre ++ x :: post) →
  received x = Some t → threshold_date ≤ t →
  Forall (λ y, ¬ stale threshold_date y) pre.
Proof.
  intros Hs Ht Hth. apply Forall_lookup. intros m y Hy.
  apply (newest_first_fresh threshold_date _ Hs (length pre) m x y t);
    try done.
  - by rewrite list_lookup_middle.
  - by eapply lookup_lt_Some.
  - by rewrite lookup_app_l by (by eapply lookup_lt_Some).
Qed.

(** An item that no earlier item keeps the traversal from reaching is
    stored when its step says so. *)
Lemma kept_reached (step : Z → Item → outcome) (items : list Item) :
  ∀ (i : Z) (n : nat) (x : Item) (d : Summary),
    items !! n = Some x →
    (∀ (m : nat) (y : Item), (m < n)%nat → items !! m = Some y →
       step (i + Z.of_nat m) y ≠ Stop ∧
       ∀ e, step (i + Z.of_nat m) y ≠ Abort e) →
    step (i + Z.of_nat n) x = Keep d →
    {| e_key := i + Z.of_nat n; e_item := x; e_data := d |}
      ∈ kept step i items.
Proof.
  induction items as [|z rest IH]; intros i n x d Hx Hbefore Hstep; [done|].
  destruct n as [|n].
  - simpl in Hx. injection Hx as ->. simpl. rewrite Z.add_0_r in *.
    rewrite Hstep. apply elem_of_cons. by left.
  - simpl in Hx.
    assert (Hin : {| e_key := i + 1 + Z.of_nat n; e_item := x; e_data := d |}
                    ∈ kept step (i + 1) rest).
    { apply IH; [done| |].
      - intros m y Hm Hy.
        replace (i + 1 + Z.of_nat m) with (i + Z.of_nat (S m)) by lia.
        apply Hbefore; [lia|done].
      - rewrite <- Hstep. f_equal. lia. }
    replace (i + Z.of_nat (S n)) with (i + 1 + Z.of_nat n) by lia.
    destruct (Hbefore 0%nat z) as [Hns Hna]; [lia|done|].
    rewrite Z.add_0_r in Hns, Hna. simpl.
    destruct (step i z) as [| |d'|e'].
    + done.
    + done.
    + apply elem_of_cons. by right.
    + by destruct (Hna e').
Qed.

(** ** The search test *)





(** ** Summary and detail of one item *)

Lemma details_agree (i t : Z) (item : Item) (s : Summary) (d : Detail) :
  ReceivedTime item = Attr (Some t) →
  email_data i item t = Returns s →
  email_details item = Returns d →
  d_subject d = s_subject s ∧ d_sender d = s_sender s ∧
  d_sender_email d = s_sender_email s ∧
  d_received_time d = s_received_time s ∧
  d_read_status d = s_read_status s ∧
  d_has_attachments d = s_has_attachments s.
Proof.
  intros Ht. unfold email_data, email_details. rewrite Ht.
  destruct (Subject item) as [vs|]; [|done].
  destruct (SenderName item) as [vn|]; [|done].
  destruct (SenderEmailAddress item) as [va|]; [|done].
  destruct (UnRead item) as [vu|]; [|done].
  destruct (Attachments item) as [vl|]; [|done].
  destruct (Body item) as [vb|]; [|done]. cbn [bind].
  rewrite attachments_loop_range.
  destruct vl; cbn; intros [= <-] [= <-]; done.
Qed.

Lemma details_when_body_readable (i t : Z) (item : Item) (s : Summary)
    (body : option string) :
  ReceivedTime item = Attr (Some t) →
  email_data i item t = Returns s →
  Body item = Returns body →
  ∃ d, email_details item = Returns d ∧ d_body d = or_empty body.
Proof.
  intros Ht Hs Hb. unfold email_data, email_details in *. rewrite Ht, Hb.
  destruct (Subject item) as [vs|]; [|done].
  destruct (SenderName item) as [vn|]; [|done].
  destruct (SenderEmailAddress item) as [va|]; [|done].
  destruct (UnRead item) as [vu|]; [|done].
  destruct (Attachments item) as [vl|]; [|done]. cbn [bind].
  rewrite attachments_loop_range.
  destruct vl; cbn; eauto.
Qed.

Lemma email_data_id (i t : Z) (item : Item) (s : Summary) :
  email_data i item t = Returns s → s_id s = pretty i.
Proof.
  unfold email_data.
  destruct (Subject item) as [vs|]; [|done].
  destruct (SenderName item) as [vn|]; [|done].
  destruct (SenderEmailAddress item) as [va|]; [|done].
  destruct (UnRead item) as [vu|]; [|done].
  destruct (Attachments item) as [vl|]; [|done].
  cbn. by intros [= <-].
Qed.

(** ** One generation *)

Section Generation.

Variable step : Z → Item → outcome.

(** What a stored summary tells about its item, for both loops. *)
Hypothesis step_Keep : ∀ (k : Z) (x : Item) (d : Summary),
  step k x = Keep d →
  ∃ t, ReceivedTime x = Attr (Some t) ∧ email_data k x t = Returns d.

Lemma kept_generation (items : list Item) :
  let K := kept step 1 items in
  generation items (length K) (e_data <$> K) (store ∅ K) (e_key <$> K).
Proof.
  intros K. pose proof (kept_keys_NoDup step items 1) as Hnd. fold K in Hnd.
  unfold generation.
  split; [by rewrite length_fmap|]. split; [by rewrite length_fmap|].
  split; [by apply store_size|]. split; [|split; [|split]].
  - rewrite <- !list_fmap_compose. apply Forall_fmap_ext, Forall_forall.
    intros e He. apply kept_spec in He as (_ & _ & Hs).
    apply step_Keep in Hs as (t & _ & Hd). simpl.
    by eapply email_data_id.
  - apply kept_keys_sorted.
  - intros k Hk. apply list_elem_of_fmap in Hk as (e & -> & He).
    pose proof (kept_spec _ _ _ _ He) as (Hr & Hl & _).
    split; [lia|]. exists (e_item e). split; [done|].
    assert (Hc : store ∅ K !! e_key e = Some (e_item e)).
    { apply store_lookup_Some; [done|]. eauto. }
    split; [done|]. by apply get_hit.
  - intros k Hk.
    assert (Hc : store ∅ K !! k = None) by (by apply store_lookup_None).
    split; [done|]. rewrite get_miss by done.
    by rewrite store_size.
Qed.

Lemma kept_resolves (items : list Item) (e : entry) :
  let K := kept step 1 items in
  e ∈ K → summary_resolves (store ∅ K) (e_data e).
Proof.
  intros K He. pose proof (kept_keys_NoDup step items 1) as Hnd.
  fold K in Hnd.
  pose proof (kept_spec _ _ _ _ He) as (_ & _ & Hs).
  apply step_Keep in Hs as (t & Ht & Hd).
  assert (Hc : store ∅ K !! e_key e = Some (e_item e)).
  { apply store_lookup_Some; [done|]. eauto. }
  pose proof (email_data_id _ _ _ _ Hd) as Hid.
  exists (e_key e), (e_item e), t.
  split; [done|]. split.
  { intros k' Hk'. rewrite Hid in Hk'. symmetry.
    by apply (inj pretty). }
  split; [done|]. split; [done|]. split; [done|].
  rewrite (get_hit _ _ _ Hc). unfold details_result.
  split; [done|]. split.
  - intros d Hdet.
    destruct (email_details (e_item e)) as [d'|] eqn:Hdd; [|done].
    injection Hdet as ->. by eapply details_agree.
  - intros body Hb.
    destruct (details_when_body_readable _ _ _ _ _ Ht Hd Hb)
      as (d & -> & Hbody).
    eauto.
Qed.

End Generation.

Lemma list_step_data (threshold_date : Z) (k : Z) (x : Item) (d : Summary) :
  list_step threshold_date k x = Keep d →
  ∃ t, ReceivedTime x = Attr (Some t) ∧ email_data k x t = Returns d.
Proof. intros H. apply list_step_Keep in H as (t & ? & _ & ?). eauto. Qed.

Lemma search_step_data (stl : string) (threshold_date : Z) (k : Z) (x : Item)
    (d : Summary) :
  search_step stl threshold_date k x = Keep d →
  ∃ t, ReceivedTime x = Attr (Some t) ∧ email_data k x t = Returns d.
Proof. intros H. apply search_step_Keep in H as (t & ? & _ & _ & ?). eauto. Qed.

Lemma list_step_timed (threshold_date i : Z) (x : Item) :
  is_Some (received x) → list_step threshold_date i x ≠ Skip.
Proof.
  intros [t Ht]. unfold received in Ht. unfold list_step.
  destruct (ReceivedTime x) as [|[t'|]]; try done.
  destruct (t' <? threshold_date); [done|].
  by destruct (email_data i x t').
Qed.

(** When every item has a received time the listing stores a run of
    consecutive positions. *)
Lemma list_keys_consecutive (threshold_date : Z) (items : list Item) :
  Forall (λ x, is_Some (received x)) items →
  ∀ i : Z,
    e_key <$> kept (list_step threshold_date) i items
      = seqZ i (Z.of_nat (length (kept (list_step threshold_date) i items))).
Proof.
  induction 1 as [|x rest Hx _ IH]; intros i; [done|].
  cbn [kept]. pose proof (list_step_timed threshold_date i x Hx) as Hns.
  destruct (list_step threshold_date i x) as [| |d|e]; try done.
  rewrite fmap_cons. cbn [length e_key].
  rewrite seqZ_cons by lia. f_equal. rewrite IH. f_equal; lia.
Qed.

(** * Properties of the tools *)

(** C5. [outlook_get_email_by_number] on the empty cache (the state before
    any listing or search has stored anything) answers the "no prior
    listing" error for every [email_number]; on a non-empty cache that lacks
    the number it answers the "not found in the current listing" error; the
    two messages differ; and both are returned as [Error] results of the
    tool, not raised. *)
Theorem C5_empty_cache_and_missing_id_errors :
  (∀ email_number : Z,
     outlook_get_email_by_number email_number ∅ = Error no_listing_error) ∧
  (∀ (email_cache : gmap Z Item) (email_number : Z),
     email_cache ≠ ∅ →
     email_cache !! email_number = None →
     outlook_get_email_by_number email_number email_cache
       = Error (not_found_error email_number)) ∧
  (∀ email_number : Z, no_listing_error ≠ not_found_error email_number).
Proof.
  split; [|split].
  - intros n. by rewrite get_miss.
  - intros c n Hne Hn. rewrite get_miss by done.
    rewrite bool_decide_eq_false_2; [done|].
    intros Hsize. by apply map_size_empty_iff in Hsize.
  - apply errors_differ.
Qed.

(** C6. For every [days] outside 1..30 both tools return an [Error] result
    (and leave the cache alone): the listing answers the range message, the
    search answers the range message or, for an empty term, the empty-term
    message.  For [days] equal to 1 or 30 the range check passes: with a
    connection and a resolved folder the tools run their loops. *)
Theorem C6_days_outside_range_is_an_error :
  (∀ (dispatch : py Namespace) (now days : Z) (search_term : string)
     (folder_name : option string) (email_cache : gmap Z Item),
     days < 1 ∨ 30 < days →
     outlook_list_recent_emails dispatch now days folder_name email_cache
       = (email_cache, Error "Days must be between 1 and 30") ∧
     outlook_search_emails dispatch now search_term days folder_name email_cache
       = (email_cache,
          Error (if str_falsy search_term then "Search term cannot be empty"
                 else "Days must be between 1 and 30"))) ∧
  (∀ (dispatch : py Namespace) (now days : Z) (search_term : string)
     (folder_name : option string) (email_cache : gmap Z Item)
     (namespace : Namespace) (folder : Folder),
     days = 1 ∨ days = 30 →
     safe_connect_to_outlook dispatch = Returns namespace →
     get_folder_by_name namespace folder_name = Returns folder →
     days_out_of_range days = false ∧
     outlook_list_recent_emails dispatch now days folder_name email_cache
       = (let '(c, r) :=
            list_loop (now - timedelta_days days) 1 (Items folder) ∅ [] in
          (c, match r with
              | Returns emails =>
                  EmailList (Name folder) (length emails) emails
              | Raises e => Error e
              end)) ∧
     (str_falsy search_term = false →
      outlook_search_emails dispatch now search_term days folder_name
        email_cache
        = (let '(c, emails) :=
             search_loop (lower search_term) (now - timedelta_days days) 1
               (Items folder) ∅ [] in
           (c, SearchList (Name folder) search_term (length emails) emails)))).
Proof.
  split.
  - intros dispatch now days term fn c Hdays.
    assert (Hout : days_out_of_range days = true).
    { unfold days_out_of_range, MAX_DAYS. apply orb_true_iff.
      destruct Hdays; [left; lia | right; lia]. }
    unfold outlook_list_recent_emails, outlook_search_emails.
    rewrite Hout. split; [done|]. by destruct (str_falsy term).
  - intros dispatch now days term fn c ns folder Hdays Hconn Hfolder.
    assert (Hin : days_out_of_range days = false)
      by (by destruct Hdays as [-> | ->]).
    split; [done|].
    unfold outlook_list_recent_emails, outlook_search_emails.
    rewrite Hin, Hconn, Hfolder. cbv zeta. split.
    + by destruct (list_loop _ _ _ _ _) as [c' [es|e]].
    + by intros ->.
Qed.

(** C7. [outlook_search_emails] with the empty search term returns the
    empty-term [Error] whatever the other arguments, the connection and the
    cache are; it never returns a [SearchList]. *)
Theorem C7_empty_search_term_is_an_error :
  ∀ (dispatch : py Namespace) (now days : Z) (folder_name : option string)
    (email_cache : gmap Z Item),
    outlook_search_emails dispatch now "" days folder_name email_cache
      = (email_cache, Error "Search term cannot be empty").
Proof. reflexivity. Qed.

(** C9. For a cached number whose message has the attachments [atts] (in
    the provider's order), every detail [outlook_get_email_by_number]
    returns has [has_attachments] true exactly when [atts] is non-empty and
    one [{filename, size}] record per attachment, the record at place [i]
    (counted from 1) being the one of [Attachments(i)]; with zero
    attachments that is [has_attachments = false] and no records.  And the
    tool does return a detail whenever the message's properties can be
    read. *)
Theorem C9_attachment_records :
  ∀ (email_cache : gmap Z Item) (email_number : Z) (email_item : Item)
    (atts : list Attachment),
    email_cache !! email_number = Some email_item →
    Attachments email_item = Returns atts →
    (∀ d : Detail,
       outlook_get_email_by_number email_number email_cache = EmailDetails d →
       d_attachments d = attachment_record <$> atts ∧
       d_has_attachments d = bool_decide (atts ≠ []) ∧
       (atts = [] → d_has_attachments d = false ∧ d_attachments d = []) ∧
       (∀ (i : Z) (a : Attachment),
          Attachments_call atts i = Returns a →
          d_attachments d !! Z.to_nat (i - 1)
            = Some {| filename := FileName a; size_bytes := Size a |})) ∧
    (readable email_item →
     ∃ d : Detail,
       outlook_get_email_by_number email_number email_cache = EmailDetails d).
Proof.
  intros c n item atts Hn Hatts. rewrite (get_hit _ _ _ Hn).
  unfold details_result. split.
  - intros d Hd. destruct (email_details item) as [d'|] eqn:Hdet; [|done].
    injection Hd as ->.
    destruct (email_details_attachments _ _ _ Hatts Hdet) as [Hhas Hrec].
    split; [done|]. split; [|split].
    + rewrite Hhas. by destruct atts.
    + intros ->. by rewrite Hhas, Hrec.
    + intros i a. unfold Attachments_call.
      destruct (i <? 1); [done|].
      destruct (atts !! Z.to_nat (i - 1)) as [a'|] eqn:Hi; [|done].
      intros [= ->]. rewrite Hrec, list_lookup_fmap, Hi. done.
  - intros Hread. destruct (email_details_readable _ Hread) as [d ->]. eauto.
Qed.

(** C3. The enumeration of both tools stops at an item whose received time
    is strictly before the threshold [now - days]: that item and every item
    after it add no summary and no cache entry, whatever they contain, so the
    loops (and the tools) answer as if the folder ended just before it.  This
    holds at every such item, hence at the first one, and does not depend on
    the order of the items. *)
Theorem C3_enumeration_stops_at_stale_item :
  ∀ (threshold_date : Z) (pre post : list Item) (item : Item),
    stale threshold_date item →
    (∀ (i : Z) (c : gmap Z Item) (es : list Summary),
       list_loop threshold_date i (pre ++ item :: post) c es
         = list_loop threshold_date i pre c es) ∧
    (∀ (stl : string) (i : Z) (c : gmap Z Item) (es : list Summary),
       search_loop stl threshold_date i (pre ++ item :: post) c es
         = search_loop stl threshold_date i pre c es) ∧
    (∀ (dispatch : py Namespace) (now days : Z) (folder_name : option string)
       (email_cache : gmap Z Item) (namespace : Namespace) (folder : Folder),
       threshold_date = now - timedelta_days days →
       days_out_of_range days = false →
       safe_connect_to_outlook dispatch = Returns namespace →
       get_folder_by_name namespace folder_name = Returns folder →
       Items folder = pre ++ item :: post →
       outlook_list_recent_emails dispatch now days folder_name email_cache
         = (let '(c, r) := list_loop threshold_date 1 pre ∅ [] in
            (c, match r with
                | Returns emails =>
                    EmailList (Name folder) (length emails) emails
                | Raises e => Error e
                end)) ∧
       ∀ search_term : string,
         str_falsy search_term = false →
         outlook_search_emails dispatch now search_term days folder_name
           email_cache
           = (let '(c, emails) :=
                search_loop (lower search_term) threshold_date 1 pre ∅ [] in
              (c, SearchList (Name folder) search_term (length emails)
                    emails))).
Proof.
  intros th pre post item Hstale.
  assert (Hlist : ∀ i c es,
    list_loop th i (pre ++ item :: post) c es = list_loop th i pre c es).
  { intros i c es. rewrite !list_loop_kept.
    rewrite kept_app_stop, aborted_app_stop by (by apply list_step_stale).
    done. }
  assert (Hsearch : ∀ stl i c es,
    search_loop stl th i (pre ++ item :: post) c es
      = search_loop stl th i pre c es).
  { intros stl i c es. rewrite !search_loop_kept.
    rewrite kept_app_stop by (by apply search_step_stale). done. }
  split; [exact Hlist|]. split; [exact Hsearch|].
  intros dispatch now days fn c0 ns folder -> Hdays Hconn Hfolder Hitems.
  unfold outlook_list_recent_emails, outlook_search_emails.
  rewrite Hdays, Hconn, Hfolder, Hitems. cbv zeta.
  rewrite Hlist. split.
  - by destruct (list_loop _ _ _ _ _) as [c' [es|e]].
  - intros term ->. by rewrite Hsearch.
Qed.

(** C8. In a search over the sorted folder, an item inside the time window
    at which reading the subject, the sender name or the body raises is
    skipped: it gets no summary and no cache entry, the enumeration goes on
    with the next item at the next position, and the tool returns a
    [SearchList] with the matches found before and after it; the error is
    not returned to the caller. *)
Theorem C8_unreadable_item_is_skipped :
  ∀ (dispatch : py Namespace) (now : Z) (search_term : string) (days : Z)
    (folder_name : option string) (email_cache : gmap Z Item)
    (namespace : Namespace) (folder : Folder)
    (pre post : list Item) (item : Item) (t : Z) (e : string),
    str_falsy search_term = false →
    days_out_of_range days = false →
    safe_connect_to_outlook dispatch = Returns namespace →
    get_folder_by_name namespace folder_name = Returns folder →
    Items folder = pre ++ item :: post →
    newest_first (Items folder) →
    ReceivedTime item = Attr (Some t) →
    now - timedelta_days days ≤ t →
    read_raises (lower search_term) item e →
    outlook_search_emails dispatch now search_term days folder_name email_cache
      = (let stl := lower search_term in
         let threshold_date := now - timedelta_days days in
         let '(c1, es1) := search_loop stl threshold_date 1 pre ∅ [] in
         let '(c2, es2) :=
           search_loop stl threshold_date (1 + Z.of_nat (length pre) + 1)
             post c1 es1 in
         (c2, SearchList (Name folder) search_term (length es2) es2)).
Proof.
  intros dispatch now term days fn c0 ns folder pre post item t e
    Hterm Hdays Hconn Hfolder Hitems Hsorted Ht Hwin Hraise.
  unfold outlook_search_emails.
  rewrite Hterm, Hdays, Hconn, Hfolder. cbv zeta.
  rewrite Hitems in Hsorted |- *.
  rewrite search_loop_app.
  2:{ eapply sorted_prefix_fresh; [exact Hsorted| |exact Hwin].
      unfold received. by rewrite Ht. }
  destruct (search_loop _ _ 1 pre ∅ []) as [c1 es1].
  rewrite search_loop_step. unfold search_step. rewrite Ht.
  destruct (Z.ltb_spec t (now - timedelta_days days)); [lia|].
  by rewrite (read_raises_try _ _ _ _ _ Hraise).
Qed.


(** C10. In a successful listing or search every returned summary's [id] is
    the decimal string of the (one) integer under which the cache holds the
    handle of the item the summary was built from, so
    [outlook_get_email_by_number] with that integer, asked before the next
    listing or search, answers from that same item: every detail it returns
    agrees with the summary on the fields they share, and it returns one
    whenever the item's body can be read. *)
Theorem C10_summary_id_is_the_cache_key :
  ∀ (dispatch : py Namespace) (now days : Z) (folder_name : option string)
    (email_cache : gmap Z Item),
    (∀ (c : gmap Z Item) (name : string) (N : nat) (es : list Summary),
       outlook_list_recent_emails dispatch now days folder_name email_cache
         = (c, EmailList name N es) →
       ∀ s : Summary, s ∈ es → summary_resolves c s) ∧
    (∀ (search_term : string) (c : gmap Z Item) (name st : string) (N : nat)
       (es : list Summary),
       outlook_search_emails dispatch now search_term days folder_name
         email_cache
         = (c, SearchList name st N es) →
       ∀ s : Summary, s ∈ es → summary_resolves c s).
Proof.
  intros dispatch now days fn c0. split.
  - intros c name N es Hrun s Hs.
    destruct (list_tool_success _ _ _ _ _ _ _ _ _ Hrun)
      as (Hdays & ns & folder & Hconn & Hfolder).
    rewrite (list_tool_run _ _ _ _ _ _ _ Hdays Hconn Hfolder) in Hrun.
    cbv zeta in Hrun. destruct (aborted _ _ _); [done|].
    injection Hrun as <- _ _ <-.
    apply list_elem_of_fmap in Hs as (e & -> & He).
    eapply kept_resolves; [|exact He].
    apply list_step_data.
  - intros term c name st N es Hrun s Hs.
    destruct (search_tool_success _ _ _ _ _ _ _ _ _ _ _ Hrun)
      as (Hterm & Hdays & ns & folder & Hconn & Hfolder).
    rewrite (search_tool_run _ _ _ _ _ _ _ _ Hterm Hdays Hconn Hfolder)
      in Hrun.
    cbv zeta in Hrun. injection Hrun as <- _ _ _ <-.
    apply list_elem_of_fmap in Hs as (e & -> & He).
    eapply kept_resolves; [|exact He].
    apply search_step_data.
Qed.

(** C1, as the code has it.  A successful listing or search that returns
    [N] summaries leaves a cache of exactly [N] keys: the positions (counted
    from 1 over the enumerated folder items) of the stored items, in
    increasing order and equal to the summaries' ids.  Each of these keys
    resolves through [outlook_get_email_by_number] to the item at that
    position; every other integer gets an [Error] (the not-found message, or
    the no-listing message when [N = 0]).  The positions advance on every
    enumerated item, stored or not, so the keys need not be [1..N].  In a
    listing of a folder whose items all have a received time they are
    exactly [1..N], and there [N + 1] gets the error. *)
Theorem C1_cache_keys_are_enumeration_positions :
  ∀ (dispatch : py Namespace) (now days : Z) (folder_name : option string)
    (email_cache : gmap Z Item) (namespace : Namespace) (folder : Folder),
    safe_connect_to_outlook dispatch = Returns namespace →
    get_folder_by_name namespace folder_name = Returns folder →
    (∀ (c : gmap Z Item) (name : string) (N : nat) (es : list Summary),
       outlook_list_recent_emails dispatch now days folder_name email_cache
         = (c, EmailList name N es) →
       ∃ keys : list Z,
         generation (Items folder) N es c keys ∧
         (Forall (λ x, is_Some (received x)) (Items folder) →
          keys = seqZ 1 (Z.of_nat N) ∧
          outlook_get_email_by_number (Z.of_nat N + 1) c
            = Error (if bool_decide (N = 0%nat) then no_listing_error
                     else not_found_error (Z.of_nat N + 1)))) ∧
    (∀ (search_term : string) (c : gmap Z Item) (name st : string) (N : nat)
       (es : list Summary),
       outlook_search_emails dispatch now search_term days folder_name
         email_cache
         = (c, SearchList name st N es) →
       ∃ keys : list Z, generation (Items folder) N es c keys).
Proof.
  intros dispatch now days fn c0 ns folder Hconn Hfolder. split.
  - intros c name N es Hrun.
    destruct (list_tool_success _ _ _ _ _ _ _ _ _ Hrun) as (Hdays & _).
    rewrite (list_tool_run _ _ _ _ _ _ _ Hdays Hconn Hfolder) in Hrun.
    cbv zeta in Hrun. destruct (aborted _ _ _); [done|].
    injection Hrun as <- _ <- <-.
    set (K := kept (list_step (now - timedelta_days days)) 1 (Items folder)).
    pose proof (kept_generation _
                  (list_step_data (now - timedelta_days days))
                  (Items folder)) as Hgen.
    cbv zeta in Hgen. fold K in Hgen.
    exists (e_key <$> K). split; [exact Hgen|].
    intros Htimed.
    pose proof (list_keys_consecutive (now - timedelta_days days) _ Htimed 1)
      as Hkeys.
    fold K in Hkeys. split; [exact Hkeys|].
    destruct Hgen as (_ & _ & _ & _ & _ & _ & Hmiss).
    apply Hmiss. rewrite Hkeys. rewrite elem_of_seqZ. lia.
  - intros term c name st N es Hrun.
    destruct (search_tool_success _ _ _ _ _ _ _ _ _ _ _ Hrun)
      as (Hterm & Hdays & _).
    rewrite (search_tool_run _ _ _ _ _ _ _ _ Hterm Hdays Hconn Hfolder)
      in Hrun.
    cbv zeta in Hrun. injection Hrun as <- _ _ <- <-.
    eexists.
    apply (kept_generation _
             (search_step_data (lower term) (now - timedelta_days days))
             (Items folder)).
Qed.

(** C2, as the code has it.  Both tools clear the cache after argument
    validation, connection and folder resolution, just before the loop.  A
    call that fails at one of these three stages returns its error with the
    cache exactly as it was.  A call that passes them discards the previous
    generation in full before the first new entry is stored, also when the
    enumeration fails later: the cache it leaves does not depend on the
    previous one, and each of its entries was stored by this call's loop (its
    key is the position of its item in the folder and the loop's step kept
    it). *)
Theorem C2_cache_is_cleared_once_the_folder_is_resolved :
  ∀ (dispatch : py Namespace) (now days : Z) (search_term : string)
    (folder_name : option string) (old : gmap Z Item),
    ((str_falsy search_term = true →
      fst (outlook_search_emails dispatch now search_term days folder_name old)
        = old) ∧
     (days_out_of_range days = true ∨
      (∃ e, safe_connect_to_outlook dispatch = Raises e) ∨
      (∃ namespace e,
         safe_connect_to_outlook dispatch = Returns namespace ∧
         get_folder_by_name namespace folder_name = Raises e) →
      fst (outlook_list_recent_emails dispatch now days folder_name old) = old ∧
      fst (outlook_search_emails dispatch now search_term days folder_name old)
        = old)) ∧
    (∀ (namespace : Namespace) (folder : Folder),
       days_out_of_range days = false →
       safe_connect_to_outlook dispatch = Returns namespace →
       get_folder_by_name namespace folder_name = Returns folder →
       let threshold_date := now - timedelta_days days in
       (fst (outlook_list_recent_emails dispatch now days folder_name old)
          = fst (list_loop threshold_date 1 (Items folder) ∅ []) ∧
        ∀ (k : Z) (item : Item),
          fst (outlook_list_recent_emails dispatch now days folder_name old)
            !! k = Some item →
          1 ≤ k ∧ Items folder !! Z.to_nat (k - 1) = Some item ∧
          ∃ data, list_step threshold_date k item = Keep data) ∧
       (str_falsy search_term = false →
        fst (outlook_search_emails dispatch now search_term days folder_name
               old)
          = fst (search_loop (lower search_term) threshold_date 1
                   (Items folder) ∅ []) ∧
        ∀ (k : Z) (item : Item),
          fst (outlook_search_emails dispatch now search_term days folder_name
                 old) !! k = Some item →
          1 ≤ k ∧ Items folder !! Z.to_nat (k - 1) = Some item ∧
          ∃ data,
            search_step (lower search_term) threshold_date k item
              = Keep data)).
Proof.
  intros dispatch now days term fn old. split; [split|].
  - intros Hterm. unfold outlook_search_emails. by rewrite Hterm.
  - intros Hfail. unfold outlook_list_recent_emails, outlook_search_emails.
    destruct (str_falsy term), (days_out_of_range days) eqn:Hdays; try done;
      destruct Hfail as [?|[[e He]|(ns & e & Hns & He)]]; try done;
      try (by rewrite He); by rewrite Hns, He.
  - intros ns folder Hdays Hconn Hfolder th. split.
    + rewrite (list_tool_run _ _ _ _ _ _ _ Hdays Hconn Hfolder).
      cbv zeta. fold th. rewrite list_loop_kept. cbn [fst].
      split; [done|]. intros k item Hk.
      apply store_lookup_Some in Hk as (e & He & <- & <-);
        [|apply kept_keys_NoDup].
      apply kept_spec in He as (Hr & Hl & Hs).
      split; [lia|]. split; [done|]. eauto.
    + intros Hterm.
      rewrite (search_tool_run _ _ _ _ _ _ _ _ Hterm Hdays Hconn Hfolder).
      cbv zeta. fold th. rewrite search_loop_kept. cbn [fst].
      split; [done|]. intros k item Hk.
      apply store_lookup_Some in Hk as (e & He & <- & <-);
        [|apply kept_keys_NoDup].
      apply kept_spec in He as (Hr & Hl & Hs).
      split; [lia|]. split; [done|]. eauto.
Qed.

(** * Further properties *)

(** ** Folder resolution *)

Lemma find_app {A : Type} (p : A → bool) (l1 l2 : list A) :
  List.find p (l1 ++ l2) =
    match List.find p l1 with
    | Some x => Some x
    | None => List.find p l2
    end.
Proof.
  induction l1 as [|x l1 IH]; simpl; [done|]. by destruct (p x).
Qed.

Lemma find_in_roots_flat (folder_name : string) (roots : list Folder) :
  find_in_roots folder_name roots =
    List.find (name_matches folder_name)
      (flat_map (λ folder, folder :: Folders folder) roots).
Proof.
  induction roots as [|folder rest IH]; simpl; [done|].
  destruct (name_matches folder_name folder); [done|].
  rewrite find_app, IH. done.
Qed.

Lemma get_folder_by_name_find (namespace : Namespace) (inbox : Folder)
    (folder_name : string) :
  GetDefaultFolder namespace 6 = Returns inbox →
  str_falsy folder_name = false →
  get_folder_by_name namespace (Some folder_name) =
    match List.find (name_matches folder_name)
            (candidates inbox (ns_Folders namespace)) with
    | Some folder => Returns folder
    | None => Raises ("Folder '" +:+ folder_name +:+ "' not found")
    end.
Proof.
  intros Hinbox Hname. unfold get_folder_by_name, candidates.
  cbn [or_empty]. rewrite Hname, Hinbox. cbn [bind].
  rewrite find_app, find_in_roots_flat.
  by destruct (List.find _ (Folders inbox)).
Qed.

Lemma name_matches_true (folder_name : string) (folder : Folder) :
  name_matches folder_name folder = true ↔
  lower (Name folder) = lower folder_name.
Proof. unfold name_matches. apply bool_decide_eq_true. Qed.

Lemma str_falsy_iff (s s' : string) :
  (s = "" ↔ s' = "") → str_falsy s = str_falsy s'.
Proof.
  intros [H1 H2]. destruct s, s'; try done.
  - by specialize (H1 eq_refl).
  - by specialize (H2 eq_refl).
Qed.

Lemma name_matches_lower (n n' : string) :
  lower n = lower n' → name_matches n = name_matches n'.
Proof. intros H. unfold name_matches. by rewrite H. Qed.

Lemma get_folder_by_name_lower (namespace : Namespace) (n n' : string)
    (folder : Folder) :
  lower n = lower n' →
  (n = "" ↔ n' = "") →
  get_folder_by_name namespace (Some n) = Returns folder →
  get_folder_by_name namespace (Some n') = Returns folder.
Proof.
  intros Hl He. unfold get_folder_by_name. cbn [or_empty].
  rewrite (str_falsy_iff n n' He).
  destruct (str_falsy n'); [done|].
  destruct (GetDefaultFolder namespace 6) as [inbox|]; [|done]. cbn [bind].
  rewrite !find_in_roots_flat, (name_matches_lower _ _ Hl).
  destruct (List.find _ (Folders inbox)); [done|].
  by destruct (List.find _ _).
Qed.

(** X1. A named folder is looked up in a fixed order: the subfolders of the
    inbox first, then each root folder followed by its own subfolders; the
    first folder in that order whose name equals the requested one up to
    case is returned, so an inbox subfolder wins over a root-level folder of
    the same name.  With no match the lookup raises the not-found error that
    quotes the name as given. *)
Theorem X1_folder_lookup_takes_first_match :
  ∀ (namespace : Namespace) (inbox : Folder) (folder_name : string),
    GetDefaultFolder namespace 6 = Returns inbox →
    folder_name ≠ "" →
    get_folder_by_name namespace (Some folder_name) =
      match List.find (λ folder,
                         bool_decide (lower (Name folder) = lower folder_name))
              (Folders inbox
               ++ flat_map (λ folder, folder :: Folders folder)
                    (ns_Folders namespace)) with
      | Some folder => Returns folder
      | None => Raises ("Folder '" +:+ folder_name +:+ "' not found")
      end.
Proof.
  intros ns inbox n Hinbox Hne.
  apply (get_folder_by_name_find ns inbox n Hinbox). by destruct n.
Qed.

(** X2. With a readable inbox and a non-empty name, the lookup succeeds
    exactly when a subfolder of the inbox, a root folder or a subfolder of a
    root folder has that name up to case; the folder it returns is one of
    these and has that name up to case.  Folders nested deeper are never
    returned. *)
Theorem X2_folder_found_iff_a_candidate_matches :
  ∀ (namespace : Namespace) (inbox : Folder) (folder_name : string),
    GetDefaultFolder namespace 6 = Returns inbox →
    folder_name ≠ "" →
    (∀ folder : Folder,
       get_folder_by_name namespace (Some folder_name) = Returns folder →
       folder ∈ candidates inbox (ns_Folders namespace) ∧
       lower (Name folder) = lower folder_name) ∧
    ((∃ folder : Folder,
        get_folder_by_name namespace (Some folder_name) = Returns folder) ↔
     (∃ folder : Folder,
        folder ∈ candidates inbox (ns_Folders namespace) ∧
        lower (Name folder) = lower folder_name)).
Proof.
  intros ns inbox n Hinbox Hne.
  assert (Hfalsy : str_falsy n = false) by (by destruct n).
  rewrite (get_folder_by_name_find ns inbox n Hinbox Hfalsy).
  assert (Hsound : ∀ folder,
    match List.find (name_matches n) (candidates inbox (ns_Folders ns)) with
    | Some f => Returns f
    | None => Raises ("Folder '" +:+ n +:+ "' not found")
    end = Returns folder →
    folder ∈ candidates inbox (ns_Folders ns) ∧ lower (Name folder) = lower n).
  { intros folder.
    destruct (List.find _ _) as [f|] eqn:Hfind; [|done].
    intros [= ->]. apply find_some in Hfind as [Hin Hm].
    split; [by apply list_elem_of_In | by apply name_matches_true]. }
  split; [exact Hsound|]. split.
  - intros [folder Hf]. exists folder. by apply Hsound.
  - intros (folder & Hin & Hm).
    destruct (List.find _ _) as [f|] eqn:Hfind; [eauto|].
    apply list_elem_of_In in Hin.
    pose proof (find_none _ _ Hfind folder Hin) as Hno.
    apply name_matches_true in Hm. congruence.
Qed.

(** X3. Folder names are compared after [str.lower()] on both sides: two
    requested names with the same lower-cased form (both empty or both
    non-empty) resolve to the same folder, and the listing and the search
    then answer identically under either spelling. *)
Theorem X3_folder_name_case_is_ignored :
  ∀ (dispatch : py Namespace) (namespace : Namespace) (n n' : string)
    (folder : Folder),
    lower n = lower n' →
    (n = "" ↔ n' = "") →
    safe_connect_to_outlook dispatch = Returns namespace →
    get_folder_by_name namespace (Some n) = Returns folder →
    get_folder_by_name namespace (Some n') = Returns folder ∧
    (∀ (now days : Z) (email_cache : gmap Z Item),
       outlook_list_recent_emails dispatch now days (Some n) email_cache
         = outlook_list_recent_emails dispatch now days (Some n') email_cache) ∧
    (∀ (now : Z) (search_term : string) (days : Z)
       (email_cache : gmap Z Item),
       outlook_search_emails dispatch now search_term days (Some n) email_cache
         = outlook_search_emails dispatch now search_term days (Some n')
             email_cache).
Proof.
  intros dispatch ns n n' folder Hl He Hconn Hn.
  pose proof (get_folder_by_name_lower _ _ _ _ Hl He Hn) as Hn'.
  split; [exact Hn'|]. split.
  - intros now days c. unfold outlook_list_recent_emails.
    by rewrite Hconn, Hn, Hn'.
  - intros now term days c. unfold outlook_search_emails.
    by rewrite Hconn, Hn, Hn'.
Qed.

(** ** The folder tree *)

Lemma join_cons (x : string) (l : list string) : join (x :: l) = x +:+ join l.
Proof. done. Qed.

Lemma join_app (l1 l2 : list string) : join (l1 ++ l2) = join l1 +:+ join l2.
Proof.
  induction l1 as [|x l1 IH]; [done|].
  rewrite <- app_comm_cons, !join_cons, IH. symmetry. apply str_app_assoc.
Qed.

Lemma third_loop_lines (failures : ReadFailures) (l : list Folder) :
  ∀ result : string,
    third_loop failures l result =
      result
      +:+ join ((λ name, "    - " +:+ name +:+ nl) <$> names_read failures l).
Proof.
  induction l as [|folder rest IH]; intros result.
  - cbn. by rewrite str_app_nil_r.
  - cbn [third_loop names_read]. unfold read_Name.
    destruct (Name_fails failures folder).
    + cbn. by rewrite str_app_nil_r.
    + rewrite IH, fmap_cons, join_cons. apply str_app_assoc.
Qed.

Lemma third_level_lines (failures : ReadFailures) (subfolder : Folder)
    (result : string) :
  third_level failures subfolder result =
    result +:+ join (third_lines failures subfolder).
Proof.
  unfold third_level, third_lines, read_Folders.
  destruct (Folders_fail failures subfolder).
  - cbn. by rewrite str_app_nil_r.
  - apply third_loop_lines.
Qed.

(** Through readable subfolders the second loop appends their lines and
    goes on. *)
Lemma second_loop_app (failures : ReadFailures) (before rest : list Folder) :
  Forall (λ s, Name_fails failures s = None) before →
  ∀ result : string,
    second_loop failures (before ++ rest) result =
      second_loop failures rest
        (result
         +:+ join (flat_map
                     (λ subfolder,
                        ("  - " +:+ Name subfolder +:+ nl)
                        :: third_lines failures subfolder)
                     before)).
Proof.
  induction 1 as [|s before Hs _ IH]; intros result.
  - cbn. by rewrite str_app_nil_r.
  - rewrite <- app_comm_cons. cbn [second_loop flat_map].
    unfold read_Name. rewrite Hs. cbn [bind].
    rewrite IH, third_level_lines. f_equal.
    rewrite join_app, join_cons, !str_app_assoc. done.
Qed.

Lemma first_loop_app (failures : ReadFailures) (before rest : list Folder) :
  Forall (folder_readable failures) before →
  ∀ result : string,
    first_loop failures (before ++ rest) result =
      first_loop failures rest
        (result +:+ join (tree_lines_read failures before)).
Proof.
  induction 1 as [|folder before (Hn & Hf & Hsubs) _ IH]; intros result.
  - cbn. by rewrite str_app_nil_r.
  - rewrite <- app_comm_cons. cbn [first_loop].
    unfold read_Name, read_Folders. rewrite Hn, Hf. cbn [bind].
    pose proof (second_loop_app failures (Folders folder) [] Hsubs) as H2.
    rewrite app_nil_r in H2. rewrite H2. cbn [second_loop bind].
    rewrite IH. f_equal. unfold tree_lines_read. cbn [flat_map].
    rewrite join_app, join_cons, !str_app_assoc. done.
Qed.

Lemma list_folders_read (dispatch : py Namespace) (failures : ReadFailures)
    (namespace : Namespace) :
  safe_connect_to_outlook dispatch = Returns namespace →
  two_levels_readable failures namespace →
  outlook_list_folders dispatch failures =
    "Available mail folders:" +:+ nl +:+ nl
    +:+ join (tree_lines_read failures (ns_Folders namespace)).
Proof.
  intros Hconn [Hroots Hall]. unfold outlook_list_folders, read_roots.
  rewrite Hconn, Hroots. cbv zeta. cbn [bind].
  pose proof (first_loop_app failures (ns_Folders namespace) [] Hall) as H1.
  rewrite app_nil_r in H1. rewrite H1. cbn [first_loop].
  by rewrite !str_app_assoc.
Qed.

Lemma names_read_all (failures : ReadFailures) (l : list Folder) :
  Forall (λ folder, Name_fails failures folder = None) l →
  names_read failures l = Name <$> l.
Proof.
  induction 1 as [|folder l Hf _ IH]; [done|].
  cbn [names_read]. by rewrite Hf, IH.
Qed.

Lemma flat_map_Forall_ext {A B : Type} (P : A → Prop) (f g : A → list B)
    (l : list A) :
  (∀ x, P x → f x = g x) → Forall P l → flat_map f l = flat_map g l.
Proof.
  intros Hfg. induction 1 as [|x l Hx _ IH]; [done|].
  cbn [flat_map]. by rewrite (Hfg x Hx), IH.
Qed.

Lemma tree_lines_read_all (failures : ReadFailures) (namespace : Namespace) :
  third_level_readable failures namespace →
  tree_lines_read failures (ns_Folders namespace)
    = tree_lines (ns_Folders namespace).
Proof.
  unfold third_level_readable, tree_lines_read, tree_lines.
  apply flat_map_Forall_ext. intros folder Hfolder. f_equal.
  revert Hfolder. apply flat_map_Forall_ext.
  intros subfolder [Hf Hnames]. f_equal. unfold third_lines.
  rewrite Hf, (names_read_all _ _ Hnames). by rewrite <- list_fmap_compose.
Qed.

(** X4. Once connected, and when no read of the first three levels of the
    folder tree raises, the folder listing is the header line, an empty
    line, and then one line per folder of the first three levels: every root
    folder, directly followed by its subfolders, each of these directly
    followed by its own subfolders, indented by 0, 2 and 4 blanks. *)
Theorem X4_folder_listing_is_the_three_level_tree :
  ∀ (dispatch : py Namespace) (failures : ReadFailures)
    (namespace : Namespace),
    safe_connect_to_outlook dispatch = Returns namespace →
    two_levels_readable failures namespace →
    third_level_readable failures namespace →
    outlook_list_folders dispatch failures =
      "Available mail folders:" +:+ nl +:+ nl
      +:+ join (tree_lines (ns_Folders namespace)).
Proof.
  intros dispatch failures ns Hconn H2 H3.
  rewrite (list_folders_read _ _ _ Hconn H2).
  by rewrite (tree_lines_read_all _ _ H3).
Qed.

(** X5. A read that raises at the third level never fails the folder
    listing.  With the first two levels readable the tool returns the tree
    whatever happens below: under a subfolder whose own subfolders cannot be
    read no third-level line appears, and under one where the name of a
    sub-subfolder cannot be read the lines stop before that one; the lines of
    all other folders are as without the failure. *)
Theorem X5_third_level_failures_are_swallowed :
  ∀ (dispatch : py Namespace) (failures : ReadFailures)
    (namespace : Namespace),
    safe_connect_to_outlook dispatch = Returns namespace →
    two_levels_readable failures namespace →
    outlook_list_folders dispatch failures =
      "Available mail folders:" +:+ nl +:+ nl
      +:+ join
            (flat_map
               (λ folder,
                  ("- " +:+ Name folder +:+ nl)
                  :: flat_map
                       (λ subfolder,
                          ("  - " +:+ Name subfolder +:+ nl)
                          :: match Folders_fail failures subfolder with
                             | Some _ => []
                             | None =>
                                 (λ name, "    - " +:+ name +:+ nl)
                                   <$> names_read failures (Folders subfolder)
                             end)
                       (Folders folder))
               (ns_Folders namespace)).
Proof. exact list_folders_read. Qed.

(** X14. A read that raises in the first two levels fails the whole folder
    listing: when the root collection cannot be read, or, after root folders
    that could be read, the name or the subfolders of a root folder or the
    name of one of its subfolders cannot be read, the tool returns "Error
    listing mail folders: " followed by the cause, and none of the lines
    built so far. *)
Theorem X14_upper_level_failures_fail_the_listing :
  ∀ (dispatch : py Namespace) (failures : ReadFailures)
    (namespace : Namespace) (e : string),
    safe_connect_to_outlook dispatch = Returns namespace →
    (roots_fail failures namespace = Some e ∨
     (roots_fail failures namespace = None ∧
      ∃ (before after : list Folder) (folder : Folder),
        ns_Folders namespace = before ++ folder :: after ∧
        Forall (folder_readable failures) before ∧
        folder_read_raises failures folder e)) →
    outlook_list_folders dispatch failures
      = "Error listing mail folders: " +:+ e.
Proof.
  intros dispatch failures ns e Hconn Hfail.
  unfold outlook_list_folders, read_roots. rewrite Hconn. cbv zeta.
  destruct Hfail as [-> | (-> & before & after & folder & -> & Hbefore & Hf)];
    [done|].
  cbn [bind]. rewrite (first_loop_app _ _ _ Hbefore). cbn [first_loop].
  unfold read_Name, read_Folders.
  destruct Hf as [-> | [[-> ->] | (-> & -> & sb & sa & s & -> & Hsb & Hs)]];
    try done.
  cbn [bind]. rewrite (second_loop_app _ _ _ Hsb). cbn [second_loop].
  unfold read_Name. by rewrite Hs.
Qed.

(** ** Comparing traversals *)

Section Compare.

Variables step1 step2 : Z → Item → outcome.

(** [step1] stops where [step2] may go on, and otherwise does the same. *)
Lemma kept_prefix (items : list Item) :
  (∀ i x, step1 i x = Stop ∨ step1 i x = step2 i x) →
  ∀ i : Z,
    kept step1 i items `prefix_of` kept step2 i items ∧
    (aborted step2 i items = None → aborted step1 i items = None).
Proof.
  intros Hsteps. induction items as [|x rest IH]; intros i.
  - split; [apply prefix_nil|done].
  - cbn [kept aborted]. destruct (Hsteps i x) as [-> | ->].
    + split; [apply prefix_nil|done].
    + destruct (IH (i + 1)) as [Hp Ha].
      destruct (step2 i x) as [| |d|e].
      * done.
      * split; [apply prefix_nil|done].
      * split; [by apply prefix_cons|done].
      * split; [apply prefix_nil|done].
Qed.

(** [step1] skips some of what [step2] stores, and otherwise does the same,
    as long as [step2] does not abort. *)
Lemma kept_sublist (items : list Item) :
  (∀ i x, step1 i x = step2 i x ∨
          (step1 i x = Skip ∧ ∃ d, step2 i x = Keep d) ∨
          ∃ e, step2 i x = Abort e) →
  ∀ i : Z,
    aborted step2 i items = None →
    kept step1 i items `sublist_of` kept step2 i items.
Proof.
  intros Hsteps. induction items as [|x rest IH]; intros i Hab.
  - constructor.
  - cbn [kept aborted] in *.
    destruct (Hsteps i x) as [-> | [[-> [d Hd]] | [e He]]].
    + destruct (step2 i x); try done; [by apply IH|].
      apply sublist_skip. by apply IH.
    + rewrite Hd in *. apply sublist_cons. by apply IH.
    + by rewrite He in Hab.
Qed.

End Compare.

Lemma store_within (l1 l2 : list entry) :
  NoDup (e_key <$> l1) → NoDup (e_key <$> l2) →
  (∀ e, e ∈ l1 → e ∈ l2) →
  cache_within (store ∅ l1) (store ∅ l2).
Proof.
  intros Hnd1 Hnd2 Hsub k item Hk.
  apply store_lookup_Some in Hk as (e & He & <- & <-); [|done].
  apply store_lookup_Some; [done|]. eauto.
Qed.

Lemma list_step_narrower (th1 th2 : Z) :
  th2 ≤ th1 →
  ∀ i x, list_step th1 i x = Stop ∨ list_step th1 i x = list_step th2 i x.
Proof.
  intros Hth i x. unfold list_step.
  destruct (ReceivedTime x) as [|[t|]]; [by right| |by right].
  destruct (Z.ltb_spec t th1); [by left|].
  destruct (Z.ltb_spec t th2); [lia|]. by right.
Qed.

Lemma search_step_narrower (stl : string) (th1 th2 : Z) :
  th2 ≤ th1 →
  ∀ i x, search_step stl th1 i x = Stop ∨
         search_step stl th1 i x = search_step stl th2 i x.
Proof.
  intros Hth i x. unfold search_step.
  destruct (ReceivedTime x) as [|[t|]]; [by right| |by right].
  destruct (Z.ltb_spec t th1); [by left|].
  destruct (Z.ltb_spec t th2); [lia|]. by right.
Qed.

Lemma search_step_vs_list_step (stl : string) (th : Z) :
  ∀ i x, search_step stl th i x = list_step th i x ∨
         (search_step stl th i x = Skip ∧ ∃ d, list_step th i x = Keep d) ∨
         ∃ e, list_step th i x = Abort e.
Proof.
  intros i x. unfold search_step, list_step, search_try.
  destruct (ReceivedTime x) as [|[t|]]; [by left| |by left].
  destruct (t <? th); [by left|].
  destruct (email_data i x t) as [d|e]; [|right; right; eauto].
  destruct (term_matches stl x) as [[|]|e]; cbn.
  - by left.
  - right; left. eauto.
  - right; left. eauto.
Qed.

Lemma timedelta_days_mono (days1 days2 : Z) :
  days1 ≤ days2 → timedelta_days days1 ≤ timedelta_days days2.
Proof.
  intros H. unfold timedelta_days, MICROS_PER_DAY, MICROS_PER_SECOND. lia.
Qed.

(** X6. What a listing or a search returns never depends on what the cache
    held before, and repeating the same call in the same mailbox state at
    the same time leaves the same cache and returns the same answer. *)
Theorem X6_answers_do_not_depend_on_the_cache :
  ∀ (dispatch : py Namespace) (now days : Z) (search_term : string)
    (folder_name : option string) (c1 c2 : gmap Z Item),
    snd (outlook_list_recent_emails dispatch now days folder_name c1)
      = snd (outlook_list_recent_emails dispatch now days folder_name c2) ∧
    snd (outlook_search_emails dispatch now search_term days folder_name c1)
      = snd (outlook_search_emails dispatch now search_term days folder_name
               c2) ∧
    outlook_list_recent_emails dispatch now days folder_name
      (fst (outlook_list_recent_emails dispatch now days folder_name c1))
      = outlook_list_recent_emails dispatch now days folder_name c1 ∧
    outlook_search_emails dispatch now search_term days folder_name
      (fst (outlook_search_emails dispatch now search_term days folder_name
              c1))
      = outlook_search_emails dispatch now search_term days folder_name c1.
Proof.
  intros dispatch now days term fn c1 c2.
  unfold outlook_list_recent_emails, outlook_search_emails.
  destruct (str_falsy term), (days_out_of_range days); try done;
    destruct (safe_connect_to_outlook dispatch) as [ns|]; try done;
    destruct (get_folder_by_name ns fn) as [folder|]; done.
Qed.

(** X7. With the same mailbox, time, window and folder, the search returns
    a subsequence of what a successful listing returns: the same summaries
    under the same ids, in the same order, and its cache entries are among
    the listing's.  An id therefore names the same message in both. *)
Theorem X7_search_results_are_among_the_listing :
  ∀ (dispatch : py Namespace) (now days : Z) (search_term : string)
    (folder_name : option string) (c0 c0' cl : gmap Z Item) (name : string)
    (N : nat) (esl : list Summary),
    outlook_list_recent_emails dispatch now days folder_name c0
      = (cl, EmailList name N esl) →
    search_term ≠ "" →
    ∃ (cs : gmap Z Item) (ess : list Summary),
      outlook_search_emails dispatch now search_term days folder_name c0'
        = (cs, SearchList name search_term (length ess) ess) ∧
      ess `sublist_of` esl ∧
      cache_within cs cl.
Proof.
  intros dispatch now days term fn c0 c0' cl name N esl Hrun Hne.
  assert (Hterm : str_falsy term = false) by (by destruct term).
  destruct (list_tool_success _ _ _ _ _ _ _ _ _ Hrun)
    as (Hdays & ns & folder & Hconn & Hfolder).
  rewrite (list_tool_run _ _ _ _ _ _ _ Hdays Hconn Hfolder) in Hrun.
  rewrite (search_tool_run _ _ _ _ _ _ _ _ Hterm Hdays Hconn Hfolder).
  cbv zeta in *.
  destruct (aborted _ _ _) eqn:Hab; [done|].
  injection Hrun as <- <- _ <-.
  pose proof (kept_sublist _ _ (Items folder)
                (search_step_vs_list_step (lower term)
                   (now - timedelta_days days)) 1 Hab) as Hsub.
  set (Ks := kept (search_step (lower term) (now - timedelta_days days)) 1
               (Items folder)) in *.
  exists (store ∅ Ks), (e_data <$> Ks).
  split; [by rewrite length_fmap|]. split.
  - by apply fmap_sublist.
  - apply store_within; try apply kept_keys_NoDup.
    intros e He. by eapply elem_of_sublist.
Qed.

(** X8. Widening the window only appends: for [days1 <= days2] with the same
    mailbox, time and folder, whenever the call over [days2] succeeds so
    does the call over [days1], its summaries are a prefix of those over
    [days2] (same ids, same order) and its cache entries are among them.
    This holds for the listing and for the search. *)
Theorem X8_wider_window_extends_the_results :
  ∀ (dispatch : py Namespace) (now days1 days2 : Z)
    (folder_name : option string) (c0 c0' c2 : gmap Z Item) (name : string)
    (N2 : nat) (es2 : list Summary),
    1 ≤ days1 ≤ days2 →
    (outlook_list_recent_emails dispatch now days2 folder_name c0
       = (c2, EmailList name N2 es2) →
     ∃ (c1 : gmap Z Item) (es1 : list Summary),
       outlook_list_recent_emails dispatch now days1 folder_name c0'
         = (c1, EmailList name (length es1) es1) ∧
       es1 `prefix_of` es2 ∧ cache_within c1 c2) ∧
    (∀ search_term st : string,
       outlook_search_emails dispatch now search_term days2 folder_name c0
         = (c2, SearchList name st N2 es2) →
       ∃ (c1 : gmap Z Item) (es1 : list Summary),
         outlook_search_emails dispatch now search_term days1 folder_name c0'
           = (c1, SearchList name st (length es1) es1) ∧
         es1 `prefix_of` es2 ∧ cache_within c1 c2).
Proof.
  intros dispatch now days1 days2 fn c0 c0' c2 name N2 es2 Hdays12.
  assert (Hth : now - timedelta_days days2 ≤ now - timedelta_days days1).
  { pose proof (timedelta_days_mono days1 days2). lia. }
  assert (Hvalid : days_out_of_range days2 = false →
                   days_out_of_range days1 = false).
  { unfold days_out_of_range, MAX_DAYS. intros H.
    apply orb_false_iff in H as [H1 H2]. apply orb_false_iff. split; lia. }
  split.
  - intros Hrun.
    destruct (list_tool_success _ _ _ _ _ _ _ _ _ Hrun)
      as (Hdays & ns & folder & Hconn & Hfolder).
    rewrite (list_tool_run _ _ _ _ _ _ _ Hdays Hconn Hfolder) in Hrun.
    rewrite (list_tool_run _ _ _ _ _ _ _ (Hvalid Hdays) Hconn Hfolder).
    cbv zeta in *.
    destruct (kept_prefix _ _ (Items folder)
                (list_step_narrower _ _ Hth) 1) as [Hp Ha].
    destruct (aborted (list_step (now - timedelta_days days2)) _ _);
      [done|].
    rewrite (Ha eq_refl). injection Hrun as <- <- _ <-.
    set (K1 := kept (list_step (now - timedelta_days days1)) 1
                 (Items folder)) in *.
    exists (store ∅ K1), (e_data <$> K1).
    split; [by rewrite length_fmap|]. split.
    + destruct Hp as [k Hk]. rewrite Hk, fmap_app. by eexists.
    + apply store_within; try apply kept_keys_NoDup.
      intros e He. destruct Hp as [k ->]. apply elem_of_app. by left.
  - intros term st Hrun.
    destruct (search_tool_success _ _ _ _ _ _ _ _ _ _ _ Hrun)
      as (Hterm & Hdays & ns & folder & Hconn & Hfolder).
    rewrite (search_tool_run _ _ _ _ _ _ _ _ Hterm Hdays Hconn Hfolder)
      in Hrun.
    rewrite (search_tool_run _ _ _ _ _ _ _ _ Hterm (Hvalid Hdays) Hconn
               Hfolder).
    cbv zeta in *.
    destruct (kept_prefix _ _ (Items folder)
                (search_step_narrower (lower term) _ _ Hth) 1) as [Hp _].
    injection Hrun as <- <- <- _ <-.
    set (K1 := kept (search_step (lower term) (now - timedelta_days days1)) 1
                 (Items folder)) in *.
    exists (store ∅ K1), (e_data <$> K1).
    split; [by rewrite length_fmap|]. split.
    + destruct Hp as [k Hk]. rewrite Hk, fmap_app. by eexists.
    + apply store_within; try apply kept_keys_NoDup.
      intros e He. destruct Hp as [k ->]. apply elem_of_app. by left.
Qed.

(** ** The window *)

Lemma list_step_Stop (threshold_date i : Z) (item : Item) :
  list_step threshold_date i item = Stop → stale threshold_date item.
Proof.
  unfold list_step, stale, received.
  destruct (ReceivedTime item) as [|[t|]]; try done.
  destruct (Z.ltb_spec t threshold_date).
  - eauto.
  - by destruct (email_data i item t).
Qed.

Section Reach.

Variable step : Z → Item → outcome.

(** A traversal that does not abort did not abort at any item it reached. *)
Lemma reached_not_abort (items : list Item) :
  ∀ (i : Z) (n : nat) (x : Item),
    aborted step i items = None →
    items !! n = Some x →
    (∀ (m : nat) (y : Item), (m < n)%nat → items !! m = Some y →
       step (i + Z.of_nat m) y ≠ Stop) →
    ∀ e, step (i + Z.of_nat n) x ≠ Abort e.
Proof.
  induction items as [|z rest IH]; intros i n x Hab Hx Hbefore e; [done|].
  cbn [aborted] in Hab. destruct n as [|n].
  - simpl in Hx. injection Hx as ->. rewrite Z.add_0_r.
    intros Hstep. by rewrite Hstep in Hab.
  - simpl in Hx.
    replace (i + Z.of_nat (S n)) with (i + 1 + Z.of_nat n) by lia.
    pose proof (Hbefore 0%nat z ltac:(lia) eq_refl) as Hz.
    rewrite Z.add_0_r in Hz.
    apply (IH (i + 1) n x); [by destruct (step i z)|done|].
    intros m y Hm Hy.
    replace (i + 1 + Z.of_nat m) with (i + Z.of_nat (S m)) by lia.
    apply Hbefore; [lia|done].
Qed.

(** Through items that neither stop nor abort, the traversal of a
    concatenation is the traversal of its parts. *)
Lemma kept_app_through (pre rest : list Item) :
  ∀ i : Z,
    (∀ (m : nat) (y : Item), pre !! m = Some y →
       step (i + Z.of_nat m) y ≠ Stop) →
    aborted step i pre = None →
    kept step i (pre ++ rest)
      = kept step i pre ++ kept step (i + Z.of_nat (length pre)) rest ∧
    aborted step i (pre ++ rest)
      = aborted step (i + Z.of_nat (length pre)) rest.
Proof.
  induction pre as [|y pre IH]; intros i Hns Hab.
  - simpl. by rewrite Z.add_0_r.
  - cbn [aborted] in Hab. rewrite <- app_comm_cons. cbn [kept aborted].
    pose proof (Hns 0%nat y eq_refl) as Hy. rewrite Z.add_0_r in Hy.
    replace (i + Z.of_nat (length (y :: pre)))
      with (i + 1 + Z.of_nat (length pre)) by (simpl length; lia).
    destruct (IH (i + 1)) as [Hk Ha].
    { intros m y' Hy'.
      replace (i + 1 + Z.of_nat m) with (i + Z.of_nat (S m)) by lia.
      by apply Hns. }
    { by destruct (step i y). }
    destruct (step i y) as [| |d|e]; try done.
    by rewrite Hk.
Qed.

End Reach.

(** X9. Nothing older than the window is ever returned or cached: after a
    successful listing or search every cached item has a received time, and
    it is not before [now - days]; since [days] is at most 30, it is never
    more than 30 days before [now]. *)
Theorem X9_cached_items_are_inside_the_window :
  ∀ (dispatch : py Namespace) (now days : Z) (folder_name : option string)
    (email_cache c : gmap Z Item) (name : string) (N : nat)
    (es : list Summary),
    (outlook_list_recent_emails dispatch now days folder_name email_cache
       = (c, EmailList name N es) ∨
     ∃ search_term st,
       outlook_search_emails dispatch now search_term days folder_name
         email_cache
         = (c, SearchList name st N es)) →
    ∀ (k : Z) (item : Item),
      c !! k = Some item →
      ∃ t : Z,
        ReceivedTime item = Attr (Some t) ∧
        now - timedelta_days days ≤ t ∧
        now - 30 * MICROS_PER_DAY ≤ t.
Proof.
  intros dispatch now days fn c0 c name N es Hrun k item Hk.
  assert (Hbound : days_out_of_range days = false →
                   now - 30 * MICROS_PER_DAY ≤ now - timedelta_days days).
  { unfold days_out_of_range, MAX_DAYS. intros H.
    apply orb_false_iff in H as [_ H2].
    pose proof (timedelta_days_mono days 30 ltac:(lia)) as Hm.
    unfold timedelta_days in *. lia. }
  destruct Hrun as [Hrun | (term & st & Hrun)].
  - destruct (list_tool_success _ _ _ _ _ _ _ _ _ Hrun)
      as (Hdays & ns & folder & Hconn & Hfolder).
    rewrite (list_tool_run _ _ _ _ _ _ _ Hdays Hconn Hfolder) in Hrun.
    cbv zeta in Hrun. destruct (aborted _ _ _); [done|].
    injection Hrun as <- _ _ _.
    apply store_lookup_Some in Hk as (e & He & <- & <-);
      [|apply kept_keys_NoDup].
    apply kept_spec in He as (_ & _ & Hs).
    apply list_step_Keep in Hs as (t & Ht & Hwin & _).
    exists t. split; [done|]. split; [done|]. specialize (Hbound Hdays). lia.
  - destruct (search_tool_success _ _ _ _ _ _ _ _ _ _ _ Hrun)
      as (Hterm & Hdays & ns & folder & Hconn & Hfolder).
    rewrite (search_tool_run _ _ _ _ _ _ _ _ Hterm Hdays Hconn Hfolder)
      in Hrun.
    cbv zeta in Hrun. injection Hrun as <- _ _ _ _.
    apply store_lookup_Some in Hk as (e & He & <- & <-);
      [|apply kept_keys_NoDup].
    apply kept_spec in He as (_ & _ & Hs).
    apply search_step_Keep in Hs as (t & Ht & Hwin & _).
    exists t. split; [done|]. split; [done|]. specialize (Hbound Hdays). lia.
Qed.

(** X10. A successful listing misses nothing inside the window: with the
    folder in the sorted order, every item whose received time is not before
    [now - days] has its summary in the result, under its position as id,
    and its handle in the cache. *)
Theorem X10_listing_returns_every_item_in_the_window :
  ∀ (dispatch : py Namespace) (now days : Z) (folder_name : option string)
    (email_cache c : gmap Z Item) (namespace : Namespace) (folder : Folder)
    (name : string) (N : nat) (es : list Summary),
    safe_connect_to_outlook dispatch = Returns namespace →
    get_folder_by_name namespace folder_name = Returns folder →
    outlook_list_recent_emails dispatch now days folder_name email_cache
      = (c, EmailList name N es) →
    newest_first (Items folder) →
    ∀ (n : nat) (item : Item) (t : Z),
      Items folder !! n = Some item →
      ReceivedTime item = Attr (Some t) →
      now - timedelta_days days ≤ t →
      ∃ s : Summary,
        s ∈ es ∧ s_id s = pretty (Z.of_nat n + 1) ∧
        email_data (Z.of_nat n + 1) item t = Returns s ∧
        c !! (Z.of_nat n + 1) = Some item.
Proof.
  intros dispatch now days fn c0 c ns folder name N es Hconn Hfolder Hrun
    Hsorted n item t Hn Ht Hwin.
  destruct (list_tool_success _ _ _ _ _ _ _ _ _ Hrun) as (Hdays & _).
  rewrite (list_tool_run _ _ _ _ _ _ _ Hdays Hconn Hfolder) in Hrun.
  cbv zeta in Hrun.
  set (th := now - timedelta_days days) in *.
  destruct (aborted (list_step th) 1 (Items folder)) eqn:Hab; [done|].
  injection Hrun as <- _ _ <-.
  assert (Hfresh : ∀ (m : nat) (y : Item), (m < n)%nat →
            Items folder !! m = Some y →
            list_step th (1 + Z.of_nat m) y ≠ Stop).
  { intros m y Hm Hy Hstop. apply list_step_Stop in Hstop.
    eapply (newest_first_fresh th _ Hsorted n m item y t); eauto.
    unfold received. by rewrite Ht. }
  pose proof (reached_not_abort _ _ _ _ _ Hab Hn Hfresh) as Hna.
  assert (Hstep : ∃ s, list_step th (1 + Z.of_nat n) item = Keep s ∧
                       email_data (1 + Z.of_nat n) item t = Returns s).
  { unfold list_step in *. rewrite Ht in *.
    destruct (Z.ltb_spec t th); [lia|].
    destruct (email_data (1 + Z.of_nat n) item t) as [s|e]; [eauto|].
    by destruct (Hna e). }
  destruct Hstep as (s & Hstep & Hd).
  assert (Hin : {| e_key := 1 + Z.of_nat n; e_item := item; e_data := s |}
                  ∈ kept (list_step th) 1 (Items folder)).
  { apply kept_reached; [done| |done].
    intros m y Hm Hy. split; [by apply Hfresh|].
    apply (reached_not_abort _ _ _ _ _ Hab Hy).
    intros m' y' Hm' Hy'. apply Hfresh; [lia|done]. }
  replace (Z.of_nat n + 1) with (1 + Z.of_nat n) by lia.
  exists s. split; [|split; [|split]].
  - apply list_elem_of_fmap. eexists. split; [|exact Hin]. done.
  - by eapply email_data_id.
  - done.
  - apply store_lookup_Some; [apply kept_keys_NoDup|].
    eexists. split; [exact Hin|]. done.
Qed.

(** ** Failures *)

(** X11. A listing is not all-or-nothing.  When reading a property of an
    item inside the window raises, the listing returns that error, but the
    cache has already been cleared and filled with the items enumerated
    before: it holds exactly what a listing of those earlier items alone
    would have stored, and these stay retrievable by number. *)
Theorem X11_failed_listing_keeps_the_earlier_entries :
  ∀ (dispatch : py Namespace) (now days : Z) (folder_name : option string)
    (email_cache : gmap Z Item) (namespace : Namespace) (folder : Folder)
    (pre post : list Item) (item : Item) (t : Z) (e : string)
    (c1 : gmap Z Item) (es1 : list Summary),
    days_out_of_range days = false →
    safe_connect_to_outlook dispatch = Returns namespace →
    get_folder_by_name namespace folder_name = Returns folder →
    Items folder = pre ++ item :: post →
    newest_first (Items folder) →
    ReceivedTime item = Attr (Some t) →
    now - timedelta_days days ≤ t →
    list_loop (now - timedelta_days days) 1 pre ∅ [] = (c1, Returns es1) →
    email_data (1 + Z.of_nat (length pre)) item t = Raises e →
    outlook_list_recent_emails dispatch now days folder_name email_cache
      = (c1, Error e) ∧
    size c1 = length es1.
Proof.
  intros dispatch now days fn c0 ns folder pre post item t e c1 es1
    Hdays Hconn Hfolder Hitems Hsorted Ht Hwin Hpre Hraise.
  rewrite (list_tool_run _ _ _ _ _ _ _ Hdays Hconn Hfolder). cbv zeta.
  set (th := now - timedelta_days days) in *.
  rewrite list_loop_kept in Hpre.
  destruct (aborted (list_step th) 1 pre) eqn:Hab; [done|].
  injection Hpre as <- <-.
  rewrite Hitems in Hsorted |- *.
  destruct (kept_app_through (list_step th) pre (item :: post) 1) as [Hk Ha];
    [|done|].
  { intros m y Hy Hstop. apply list_step_Stop in Hstop.
    pose proof (sorted_prefix_fresh th pre post item t Hsorted) as Hfresh.
    unfold received in Hfresh. rewrite Ht in Hfresh.
    specialize (Hfresh eq_refl Hwin).
    rewrite Forall_lookup in Hfresh. by apply (Hfresh m y). }
  assert (Hstep : list_step th (1 + Z.of_nat (length pre)) item = Abort e).
  { unfold list_step. rewrite Ht.
    destruct (Z.ltb_spec t th); [lia|]. by rewrite Hraise. }
  rewrite Hk, Ha. cbn [kept aborted]. rewrite Hstep, app_nil_r.
  split; [done|].
  rewrite store_size by apply kept_keys_NoDup.
  by rewrite length_fmap.
Qed.


(** ** The search term *)

(** X13. Only the lower-cased form of the search term matters: two terms
    with the same [str.lower()] form (both empty or both non-empty) give the
    same cache and the same folder name, count and summaries (or the same
    error); only the echoed [search_term] differs. *)
Theorem X13_search_term_case_is_ignored :
  ∀ (dispatch : py Namespace) (now : Z) (term term' : string) (days : Z)
    (folder_name : option string) (email_cache : gmap Z Item),
    lower term = lower term' →
    (term = "" ↔ term' = "") →
    fst (outlook_search_emails dispatch now term days folder_name email_cache)
      = fst (outlook_search_emails dispatch now term' days folder_name
               email_cache) ∧
    match
      snd (outlook_search_emails dispatch now term days folder_name
             email_cache),
      snd (outlook_search_emails dispatch now term' days folder_name
             email_cache)
    with
    | SearchList name st N es, SearchList name' st' N' es' =>
        st = term ∧ st' = term' ∧ name = name' ∧ N = N' ∧ es = es'
    | Error e, Error e' => e = e'
    | _, _ => False
    end.
Proof.
  intros dispatch now term term' days fn c Hl He.
  unfold outlook_search_emails.
  rewrite (str_falsy_iff term term' He), Hl.
  destruct (str_falsy term'); [done|].
  destruct (days_out_of_range days); [done|].
  destruct (safe_connect_to_outlook dispatch) as [ns|]; [|done].
  destruct (get_folder_by_name ns fn) as [folder|]; [|done].
  cbv zeta.
  by destruct (search_loop _ _ _ _ _ _) as [c' es].
Qed.

End Tools.

(** * The tools on sample mailboxes

    The samples are ASCII text, on which [str.lower()] is [ascii_lower]. *)

Example strftime_epoch : strftime 0 = "1970-01-01 00:00:00".
Proof. reflexivity. Qed.

Example strftime_leap_day :
  strftime (1709251199 * MICROS_PER_SECOND + 999999) = "2024-02-29 23:59:59".
Proof. reflexivity. Qed.

Example lower_mixed : ascii_lower "Re: BUDGET [Q3]" = "re: budget [q3]".
Proof. reflexivity. Qed.

Example str_in_samples :
  str_in "" "" = true ∧ str_in "get" "budget" = true ∧
  str_in "bud get" "budget" = false ∧ str_in "a" "" = false.
Proof. repeat split. Qed.

Example folder_lookup_ignores_case :
  let archive := {| Name := "Archive"; Items := []; Folders := [] |} in
  let inbox := {| Name := "Inbox"; Items := []; Folders := [archive] |} in
  let namespace := {| GetDefaultFolder := λ _, Returns inbox;
                      ns_Folders := [] |} in
  get_folder_by_name ascii_lower namespace (Some "ARCHIVE") = Returns archive ∧
  get_folder_by_name ascii_lower namespace (Some "") = Returns inbox ∧
  get_folder_by_name ascii_lower namespace None = Returns inbox.
Proof. repeat split. Qed.

(** The scenario of five messages received 0, 1, 8, 9 and 20 days ago:
    a listing over 7 days returns the first two, numbered 1 and 2. *)
Example list_five_over_seven_days :
  ∃ c es,
    outlook_list_recent_emails ascii_lower
        (Sample.outlook_of Sample.five) Sample.now 7
      None ∅ = (c, EmailList "Inbox" 2 es) ∧
    s_id <$> es = ["1"; "2"] ∧
    dom c = {[1; 2]}.
Proof. do 2 eexists. split; [reflexivity|]. split; [reflexivity|]. by vm_compute. Qed.

Lemma C5_witness :
  let email_cache : gmap Z Item := {[ 1 := Sample.mail "Lunch" "Bob" "" 0 ]} in
  email_cache ≠ ∅ ∧ email_cache !! 5 = None ∧
  outlook_get_email_by_number 5 email_cache
    = Error "Email #5 not found in the current listing.".
Proof.
  intros email_cache.
  assert (Hne : email_cache ≠ ∅) by apply insert_non_empty.
  assert (Hn : email_cache !! 5 = None) by reflexivity.
  split; [exact Hne|]. split; [exact Hn|].
  exact (proj1 (proj2 C5_empty_cache_and_missing_id_errors) email_cache 5 Hne Hn).
Defined.

Lemma C6_witness :
  outlook_list_recent_emails ascii_lower
      (Sample.outlook_of Sample.five) Sample.now 31 None ∅
    = (∅, Error "Days must be between 1 and 30") ∧
  outlook_search_emails ascii_lower
      (Sample.outlook_of Sample.five) Sample.now "budget" 0
    None ∅
    = (∅, Error "Days must be between 1 and 30") ∧
  days_out_of_range 30 = false.
Proof.
  split; [|split].
  - apply (proj1 (C6_days_outside_range_is_an_error ascii_lower)
             (Sample.outlook_of Sample.five) Sample.now 31 "" None ∅). lia.
  - apply (proj1 (C6_days_outside_range_is_an_error ascii_lower)
             (Sample.outlook_of Sample.five) Sample.now 0 "budget" None ∅). lia.
  - refine (proj1 (proj2 (C6_days_outside_range_is_an_error ascii_lower)
             (Sample.outlook_of Sample.five) Sample.now 30 "budget" None ∅
             _ (Sample.inbox_of Sample.five) _ _ _)).
    + right. reflexivity.
    + reflexivity.
    + reflexivity.
Defined.

Lemma C9_witness :
  let report :=
    Sample.with_attachments (Sample.mail "Report" "Dave" "Attached." 0)
      [ {| FileName := "q3.pdf"; Size := 52311 |};
        {| FileName := "q3.xlsx"; Size := 9120 |} ] in
  let plain := Sample.mail "Lunch" "Bob" "Noon?" 0 in
  let email_cache : gmap Z Item := <[4 := report]> {[ 2 := plain ]} in
  (∃ d, outlook_get_email_by_number 4 email_cache = EmailDetails d ∧
        d_has_attachments d = true ∧
        d_attachments d = [ {| filename := "q3.pdf"; size_bytes := 52311 |};
                            {| filename := "q3.xlsx"; size_bytes := 9120 |} ]) ∧
  (∃ d, outlook_get_email_by_number 2 email_cache = EmailDetails d ∧
        d_has_attachments d = false ∧ d_attachments d = []).
Proof.
  intros report plain email_cache. split.
  - destruct (C9_attachment_records email_cache 4 report
                [ {| FileName := "q3.pdf"; Size := 52311 |};
                  {| FileName := "q3.xlsx"; Size := 9120 |} ]
                eq_refl eq_refl) as [Hall Hret].
    destruct Hret as [d Hd].
    { repeat split; eexists; reflexivity. }
    exists d. destruct (Hall d Hd) as (Hrec & Hhas & _).
    split; [exact Hd|]. split; [exact Hhas | exact Hrec].
  - destruct (C9_attachment_records email_cache 2 plain [] eq_refl eq_refl)
      as [Hall Hret].
    destruct Hret as [d Hd].
    { repeat split; eexists; reflexivity. }
    exists d. destruct (Hall d Hd) as (_ & _ & Hzero & _).
    split; [exact Hd | exact (Hzero eq_refl)].
Defined.

Lemma C3_witness :
  let threshold_date := Sample.now - timedelta_days 7 in
  stale threshold_date
    (Sample.mail "Old budget" "Carol" "From last week." (Sample.ago 8)) ∧
  snd (outlook_list_recent_emails ascii_lower (Sample.outlook_of Sample.five)
         Sample.now 7 None ∅)
    = EmailList "Inbox" 2
        [ {| s_id := "1"; s_subject := "Budget review"; s_sender := "Alice";
             s_sender_email := "Alice@example.org";
             s_received_time := "2023-11-14 22:13:20";
             s_read_status := "Unread"; s_has_attachments := false |};
          {| s_id := "2"; s_subject := "Lunch"; s_sender := "Bob";
             s_sender_email := "Bob@example.org";
             s_received_time := "2023-11-13 22:13:20";
             s_read_status := "Unread"; s_has_attachments := false |} ] ∧
  snd (outlook_search_emails ascii_lower (Sample.outlook_of Sample.five)
         Sample.now "budget" 7 None ∅)
    = snd (outlook_search_emails ascii_lower
        (Sample.outlook_of (take 2 Sample.five))
             Sample.now "budget" 7 None ∅).
Proof.
  intros threshold_date.
  assert (Hstale : stale threshold_date
    (Sample.mail "Old budget" "Carol" "From last week." (Sample.ago 8))).
  { exists (Sample.ago 8). split; [reflexivity|]. vm_compute. reflexivity. }
  split; [exact Hstale|].
  destruct ((C3_enumeration_stops_at_stale_item ascii_lower) threshold_date
              (take 2 Sample.five) (drop 3 Sample.five) _ Hstale)
    as (_ & _ & Htools).
  destruct (Htools (Sample.outlook_of Sample.five) Sample.now 7 None ∅
              _ (Sample.inbox_of Sample.five)
              eq_refl eq_refl eq_refl eq_refl eq_refl) as [Hlist Hsearch].
  split.
  - rewrite Hlist. vm_compute. reflexivity.
  - rewrite (Hsearch "budget" eq_refl). vm_compute. reflexivity.
Defined.

Lemma C8_witness :
  newest_first Sample.flaky ∧
  read_raises ascii_lower
      "lunch" (Sample.broken "Lunch tomorrow" (Sample.ago 1))
    "com_error: sender" ∧
  snd (outlook_search_emails ascii_lower
      (Sample.outlook_of Sample.flaky) Sample.now
         "Lunch" 7 None ∅)
    = SearchList "Inbox" "Lunch" 2
        [ {| s_id := "1"; s_subject := "Lunch today"; s_sender := "Alice";
             s_sender_email := "Alice@example.org";
             s_received_time := "2023-11-14 22:13:20";
             s_read_status := "Unread"; s_has_attachments := false |};
          {| s_id := "3"; s_subject := "Re: lunch"; s_sender := "Bob";
             s_sender_email := "Bob@example.org";
             s_received_time := "2023-11-12 22:13:20";
             s_read_status := "Unread"; s_has_attachments := false |} ].
Proof.
  assert (Hsorted : newest_first Sample.flaky).
  { apply (bool_decide_unpack _). vm_compute. exact I. }
  assert (Hraise : read_raises ascii_lower "lunch"
    (Sample.broken "Lunch tomorrow" (Sample.ago 1)) "com_error: sender").
  { eapply sender_raises; reflexivity. }
  split; [exact Hsorted|]. split; [exact Hraise|].
  rewrite ((C8_unreadable_item_is_skipped ascii_lower)
             (Sample.outlook_of Sample.flaky) Sample.now "Lunch" 7 None ∅
             _ (Sample.inbox_of Sample.flaky)
             (take 1 Sample.flaky) (drop 2 Sample.flaky)
             (Sample.broken "Lunch tomorrow" (Sample.ago 1))
             (Sample.ago 1) "com_error: sender"
             eq_refl eq_refl eq_refl eq_refl eq_refl Hsorted eq_refl).
  - vm_compute. reflexivity.
  - vm_compute. discriminate.
  - exact Hraise.
Defined.


Lemma C10_witness :
  let run := outlook_search_emails ascii_lower
      (Sample.outlook_of Sample.five) Sample.now
               "noon" 7 None ∅ in
  let s := {| s_id := "2"; s_subject := "Lunch"; s_sender := "Bob";
              s_sender_email := "Bob@example.org";
              s_received_time := "2023-11-13 22:13:20";
              s_read_status := "Unread"; s_has_attachments := false |} in
  snd run = SearchList "Inbox" "noon" 1 [s] ∧ summary_resolves (fst run) s.
Proof.
  intros run s.
  assert (Hrun : run = (fst run, SearchList "Inbox" "noon" 1 [s]))
    by reflexivity.
  split; [reflexivity|].
  apply (proj2 ((C10_summary_id_is_the_cache_key ascii_lower)
                  (Sample.outlook_of Sample.five) Sample.now 7 None ∅)
           "noon" (fst run) "Inbox" "noon" 1%nat [s] Hrun s).
  apply elem_of_cons. left. reflexivity.
Defined.

Lemma C1_witness :
  let run := outlook_list_recent_emails ascii_lower
      (Sample.outlook_of Sample.five)
               Sample.now 7 None ∅ in
  ∃ (es : list Summary) (keys : list Z),
    snd run = EmailList "Inbox" 2 es ∧
    generation Sample.five 2 es (fst run) keys ∧
    keys = [1; 2] ∧
    outlook_get_email_by_number 3 (fst run)
      = Error "Email #3 not found in the current listing.".
Proof.
  intros run.
  assert (Hrun : ∃ es, run = (fst run, EmailList "Inbox" 2 es))
    by (eexists; reflexivity).
  destruct Hrun as [es Hrun]. exists es.
  destruct (proj1 ((C1_cache_keys_are_enumeration_positions ascii_lower)
                     (Sample.outlook_of Sample.five) Sample.now 7 None ∅
                     _ (Sample.inbox_of Sample.five) eq_refl eq_refl)
              (fst run) "Inbox" 2%nat es Hrun) as (keys & Hgen & Hall).
  exists keys. split; [by rewrite Hrun|]. split; [exact Hgen|].
  destruct Hall as [Hkeys Hnext].
  - repeat constructor; eexists; reflexivity.
  - split; [exact Hkeys | exact Hnext].
Defined.

(** The keys are not [1..N] in a search whose first item does not match: one
    summary comes back ([N = 1]), its key is the item's position 2, key 1 is
    not found and key [N + 1 = 2] resolves. *)
Lemma C1_counterexample :
  let run := outlook_search_emails ascii_lower
      (Sample.outlook_of Sample.five) Sample.now
               "noon" 7 None ∅ in
  (∃ s, snd run = SearchList "Inbox" "noon" 1 [s] ∧ s_id s = "2") ∧
  outlook_get_email_by_number 1 (fst run)
    = Error "Email #1 not found in the current listing." ∧
  (∃ d, outlook_get_email_by_number 2 (fst run) = EmailDetails d ∧
        d_subject d = "Lunch").
Proof.
  intros run. split; [|split].
  - eexists. split; reflexivity.
  - reflexivity.
  - eexists. split; reflexivity.
Qed.

Lemma C2_witness :
  let stale_entry := Sample.mail "Welcome" "Erin" "Hello." (Sample.ago 20) in
  let old : gmap Z Item := {[ 7 := stale_entry ]} in
  fst (outlook_list_recent_emails ascii_lower
      (Sample.outlook_of Sample.five) Sample.now 0
         None old) = old ∧
  fst (outlook_list_recent_emails ascii_lower
      (Sample.outlook_of Sample.five) Sample.now 7
         None old) !! 7 = None ∧
  fst (outlook_search_emails ascii_lower
      (Sample.outlook_of Sample.five) Sample.now
         "noon" 7 None old)
    = fst (search_loop ascii_lower
        "noon" (Sample.now - timedelta_days 7) 1 Sample.five
             ∅ []).
Proof.
  intros stale_entry old. split; [|split].
  - apply (proj1 ((C2_cache_is_cleared_once_the_folder_is_resolved ascii_lower)
                    (Sample.outlook_of Sample.five) Sample.now 0 "noon" None
                    old)).
    left. reflexivity.
  - destruct (proj2 ((C2_cache_is_cleared_once_the_folder_is_resolved ascii_lower
      )
                       (Sample.outlook_of Sample.five) Sample.now 7 "noon"
                       None old)
                _ (Sample.inbox_of Sample.five) eq_refl eq_refl eq_refl)
      as [[Hlist _] _].
    rewrite Hlist. reflexivity.
  - destruct (proj2 ((C2_cache_is_cleared_once_the_folder_is_resolved ascii_lower
      )
                       (Sample.outlook_of Sample.five) Sample.now 7 "noon"
                       None old)
                _ (Sample.inbox_of Sample.five) eq_refl eq_refl eq_refl)
      as [_ Hsearch].
    exact (proj1 (Hsearch eq_refl)).
Defined.

(** Calls that stop before the folder is resolved keep the previous
    generation: an out-of-range [days], a failed connection and an unknown
    folder each return an [Error] and leave the previous entry under key 7
    in place. *)
Lemma C2_counterexample :
  let stale_entry := Sample.mail "Welcome" "Erin" "Hello." (Sample.ago 20) in
  let old : gmap Z Item := {[ 7 := stale_entry ]} in
  let answers (run : gmap Z Item * ToolResult) (msg : string) : Prop :=
    snd run = Error msg ∧ fst run !! 7 = Some stale_entry in
  answers (outlook_list_recent_emails ascii_lower
      (Sample.outlook_of Sample.five)
             Sample.now 0 None old)
    "Days must be between 1 and 30" ∧
  answers (outlook_search_emails ascii_lower
      (Raises "RPC server unavailable") Sample.now
             "noon" 7 None old)
    "Failed to connect to Outlook: RPC server unavailable" ∧
  answers (outlook_list_recent_emails ascii_lower
      (Sample.outlook_of Sample.five)
             Sample.now 7 (Some "Junk") old)
    "Folder 'Junk' not found".
Proof. intros stale_entry old answers. repeat split. Qed.

Lemma X1_witness :
  get_folder_by_name ascii_lower Mailbox.namespace (Some "PROJECTS")
    = Returns (Mailbox.node "Projects"
                 [ Mailbox.node "Alpha" [ Mailbox.leaf "Drafts" ] ]) ∧
  get_folder_by_name ascii_lower Mailbox.namespace (Some "q4")
    = Raises "Folder 'q4' not found".
Proof.
  split.
  - rewrite ((X1_folder_lookup_takes_first_match ascii_lower) Mailbox.namespace
               Mailbox.inbox "PROJECTS" eq_refl); [reflexivity|discriminate].
  - rewrite ((X1_folder_lookup_takes_first_match ascii_lower) Mailbox.namespace
               Mailbox.inbox "q4" eq_refl); [reflexivity|discriminate].
Defined.

Lemma X2_witness :
  (∃ folder, get_folder_by_name ascii_lower
      Mailbox.namespace (Some "sent items")
               = Returns folder) ∧
  (∀ folder, get_folder_by_name ascii_lower
      Mailbox.namespace (Some "sent items")
               = Returns folder →
             ascii_lower (Name folder) = "sent items").
Proof.
  destruct ((X2_folder_found_iff_a_candidate_matches ascii_lower
      ) Mailbox.namespace
              Mailbox.inbox "sent items" eq_refl) as [Hsound Hiff];
    [discriminate|].
  split.
  - apply Hiff. exists (Mailbox.leaf "Sent Items").
    split; [|reflexivity].
    apply list_elem_of_In. vm_compute. tauto.
  - intros folder Hget. exact (proj2 (Hsound folder Hget)).
Defined.

Lemma X3_witness :
  get_folder_by_name ascii_lower Mailbox.namespace (Some "RECEIPTS")
    = get_folder_by_name ascii_lower Mailbox.namespace (Some "receipts") ∧
  outlook_list_recent_emails ascii_lower
      Mailbox.outlook Sample.now 7 (Some "INBOX") ∅
    = outlook_list_recent_emails ascii_lower
        Mailbox.outlook Sample.now 7 (Some "inbox") ∅.
Proof.
  assert (H1 : "receipts" = "" ↔ "RECEIPTS" = "") by (split; discriminate).
  assert (H2 : "INBOX" = "" ↔ "inbox" = "") by (split; discriminate).
  split.
  - destruct ((X3_folder_name_case_is_ignored ascii_lower) Mailbox.outlook
                Mailbox.namespace "receipts" "RECEIPTS"
                (Mailbox.leaf "Receipts") eq_refl H1 eq_refl eq_refl)
      as [Hget _].
    rewrite Hget. reflexivity.
  - destruct ((X3_folder_name_case_is_ignored ascii_lower) Mailbox.outlook
                Mailbox.namespace "INBOX" "inbox" Mailbox.inbox
                eq_refl H2 eq_refl eq_refl) as (_ & Hlist & _).
    apply Hlist.
Defined.

Lemma X7_witness :
  ∃ (cs : gmap Z Item) (ess : list Summary),
    outlook_search_emails ascii_lower
        (Sample.outlook_of Sample.five) Sample.now "noon" 7
      None ∅
      = (cs, SearchList "Inbox" "noon" (length ess) ess) ∧
    ess `sublist_of`
      [ {| s_id := "1"; s_subject := "Budget review"; s_sender := "Alice";
           s_sender_email := "Alice@example.org";
           s_received_time := "2023-11-14 22:13:20";
           s_read_status := "Unread"; s_has_attachments := false |};
        {| s_id := "2"; s_subject := "Lunch"; s_sender := "Bob";
           s_sender_email := "Bob@example.org";
           s_received_time := "2023-11-13 22:13:20";
           s_read_status := "Unread"; s_has_attachments := false |} ] ∧
    cache_within cs
      (fst (outlook_list_recent_emails ascii_lower
          (Sample.outlook_of Sample.five)
              Sample.now 7 None ∅)).
Proof.
  eapply ((X7_search_results_are_among_the_listing ascii_lower)
            (Sample.outlook_of Sample.five) Sample.now 7 "noon" None ∅ ∅).
  - reflexivity.
  - discriminate.
Defined.

Lemma X8_witness :
  let wide := outlook_list_recent_emails ascii_lower
      (Sample.outlook_of Sample.five)
                Sample.now 10 None ∅ in
  ∃ (es2 : list Summary) (c1 : gmap Z Item) (es1 : list Summary),
    snd wide = EmailList "Inbox" 4 es2 ∧
    outlook_list_recent_emails ascii_lower
        (Sample.outlook_of Sample.five) Sample.now 7
      None ∅
      = (c1, EmailList "Inbox" (length es1) es1) ∧
    es1 `prefix_of` es2 ∧ cache_within c1 (fst wide).
Proof.
  intros wide.
  assert (Hwide : ∃ es2, wide = (fst wide, EmailList "Inbox" 4 es2))
    by (eexists; reflexivity).
  destruct Hwide as [es2 Hwide]. exists es2.
  destruct (proj1 ((X8_wider_window_extends_the_results ascii_lower)
                     (Sample.outlook_of Sample.five) Sample.now 7 10 None
                     ∅ ∅ (fst wide) "Inbox" 4%nat es2 ltac:(lia)) Hwide)
    as (c1 & es1 & Hrun & Hprefix & Hwithin).
  exists c1, es1. split; [by rewrite Hwide|]. by split.
Defined.

Lemma X9_witness :
  let run := outlook_list_recent_emails ascii_lower
      (Sample.outlook_of Sample.five)
               Sample.now 7 None ∅ in
  ∃ t : Z,
    fst run !! 2 = Some (Sample.mail "Lunch" "Bob" "Budget permitting, noon?"
                           t) ∧
    Sample.now - timedelta_days 7 ≤ t.
Proof.
  intros run.
  assert (Hrun : ∃ es, run = (fst run, EmailList "Inbox" 2 es))
    by (eexists; reflexivity).
  destruct Hrun as [es Hrun].
  destruct ((X9_cached_items_are_inside_the_window ascii_lower)
              (Sample.outlook_of Sample.five) Sample.now 7 None ∅ (fst run)
              "Inbox" 2%nat es (or_introl Hrun) 2
              (Sample.mail "Lunch" "Bob" "Budget permitting, noon?"
                 (Sample.ago 1)) eq_refl) as (t & Ht & Hwin & _).
  exists t. split; [|exact Hwin].
  injection Ht as <-. reflexivity.
Defined.

Lemma X10_witness :
  newest_first Sample.five ∧
  ∃ s : Summary,
    s_id s = "2" ∧ s_subject s = "Lunch" ∧
    fst (outlook_list_recent_emails ascii_lower (Sample.outlook_of Sample.five)
           Sample.now 7 None ∅) !! 2
      = Some (Sample.mail "Lunch" "Bob" "Budget permitting, noon?"
                (Sample.ago 1)).
Proof.
  assert (Hsorted : newest_first Sample.five).
  { apply (bool_decide_unpack _). vm_compute. exact I. }
  split; [exact Hsorted|].
  set (run := outlook_list_recent_emails ascii_lower
      (Sample.outlook_of Sample.five)
                Sample.now 7 None ∅).
  assert (Hrun : ∃ es, run = (fst run, EmailList "Inbox" 2 es))
    by (eexists; reflexivity).
  destruct Hrun as [es Hrun].
  destruct ((X10_listing_returns_every_item_in_the_window ascii_lower)
              (Sample.outlook_of Sample.five) Sample.now 7 None ∅ (fst run)
              _ (Sample.inbox_of Sample.five) "Inbox" 2%nat es
              eq_refl eq_refl Hrun Hsorted 1%nat
              (Sample.mail "Lunch" "Bob" "Budget permitting, noon?"
                 (Sample.ago 1))
              (Sample.ago 1) eq_refl eq_refl)
    as (s & _ & Hid & Hd & Hc).
  - vm_compute. discriminate.
  - exists s. split; [exact Hid|]. split; [|exact Hc].
    vm_compute in Hd. injection Hd as <-. reflexivity.
Defined.

Lemma X11_witness :
  let run := outlook_list_recent_emails ascii_lower
      (Sample.outlook_of Sample.flaky)
               Sample.now 7 None ∅ in
  snd run = Error "com_error: sender" ∧
  size (fst run) = 1%nat ∧
  fst run !! 1 = Some (Sample.mail "Lunch today" "Alice" "Noon?" (Sample.ago 0)).
Proof.
  intros run.
  assert (Hsorted : newest_first Sample.flaky).
  { apply (bool_decide_unpack _). vm_compute. exact I. }
  assert (Hpre : ∃ es1,
    list_loop (Sample.now - timedelta_days 7) 1 (take 1 Sample.flaky) ∅ []
      = (fst run, Returns es1) ∧ length es1 = 1%nat).
  { eexists. split; reflexivity. }
  destruct Hpre as (es1 & Hpre & Hlen).
  destruct ((X11_failed_listing_keeps_the_earlier_entries ascii_lower)
              (Sample.outlook_of Sample.flaky) Sample.now 7 None ∅
              _ (Sample.inbox_of Sample.flaky)
              (take 1 Sample.flaky) (drop 2 Sample.flaky)
              (Sample.broken "Lunch tomorrow" (Sample.ago 1))
              (Sample.ago 1) "com_error: sender" (fst run) es1
              eq_refl eq_refl eq_refl eq_refl Hsorted eq_refl)
    as [Hrun Hsize].
  - vm_compute. discriminate.
  - exact Hpre.
  - reflexivity.
  - split; [exact (f_equal snd Hrun)|].
    split; [by rewrite Hsize|reflexivity].
Defined.


Lemma X13_witness :
  fst (outlook_search_emails ascii_lower
      (Sample.outlook_of Sample.five) Sample.now
         "BUDGET" 7 None ∅)
    = fst (outlook_search_emails ascii_lower
        (Sample.outlook_of Sample.five) Sample.now
             "budget" 7 None ∅).
Proof.
  refine (proj1 ((X13_search_term_case_is_ignored ascii_lower)
                   (Sample.outlook_of Sample.five) Sample.now "BUDGET" "budget"
                   7 None ∅ eq_refl _)).
  split; discriminate.
Defined.

Lemma X4_witness :
  outlook_list_folders Mailbox.outlook Mailbox.all_readable =
    "Available mail folders:" +:+ nl +:+ nl
    +:+ join [ "- user@example.org" +:+ nl;
               "  - Inbox" +:+ nl;
               "    - Projects" +:+ nl;
               "    - Receipts" +:+ nl;
               "  - Sent Items" +:+ nl;
               "  - projects" +:+ nl;
               "- Archive" +:+ nl;
               "  - 2023" +:+ nl;
               "    - Q4" +:+ nl ].
Proof.
  apply (X4_folder_listing_is_the_three_level_tree Mailbox.outlook
           Mailbox.all_readable Mailbox.namespace eq_refl).
  - split; [reflexivity|]. repeat constructor.
  - repeat constructor.
Defined.

Lemma X5_witness :
  two_levels_readable Mailbox.some_unreadable Mailbox.namespace ∧
  outlook_list_folders Mailbox.outlook Mailbox.some_unreadable =
    "Available mail folders:" +:+ nl +:+ nl
    +:+ join [ "- user@example.org" +:+ nl;
               "  - Inbox" +:+ nl;
               "  - Sent Items" +:+ nl;
               "  - projects" +:+ nl;
               "- Archive" +:+ nl;
               "  - 2023" +:+ nl ].
Proof.
  assert (Hupper : two_levels_readable Mailbox.some_unreadable
                     Mailbox.namespace).
  { split; [reflexivity|]. repeat constructor. }
  split; [exact Hupper|].
  exact (X5_third_level_failures_are_swallowed Mailbox.outlook
           Mailbox.some_unreadable Mailbox.namespace eq_refl Hupper).
Defined.

Lemma X14_witness :
  outlook_list_folders Mailbox.outlook Mailbox.sent_unreadable
    = "Error listing mail folders: com_error: name".
Proof.
  apply (X14_upper_level_failures_fail_the_listing Mailbox.outlook
           Mailbox.sent_unreadable Mailbox.namespace "com_error: name"
           eq_refl).
  right. split; [reflexivity|].
  exists [], (drop 1 Mailbox.roots),
    (Mailbox.node "user@example.org"
       [ Mailbox.inbox; Mailbox.leaf "Sent Items"; Mailbox.leaf "projects" ]).
  split; [reflexivity|]. split; [constructor|].
  right; right. split; [reflexivity|]. split; [reflexivity|].
  exists [Mailbox.inbox], [Mailbox.leaf "projects"],
    (Mailbox.leaf "Sent Items").
  split; [reflexivity|]. split; [repeat constructor | reflexivity].
Defined.
